(** * FAO food-balance ETL: the timeseries builder and its sibling outputs

    A shallow embedding of [py/parse_enhanced.py] (class
    [EnhancedFAODataProcessor]) and of [py/extend_timeseries.py].

    - A pandas [DataFrame] is the list of its rows, in index order.
    - A Python [float] is an IEEE-754 binary64 number: Rocq's primitive
      [float], whose operations are the hardware ones.  [NaN] plays the
      role pandas gives it: a missing or unparsable cell.
    - A Python [str] is a [string] (a sequence of bytes); comparing two of
      them is the byte-wise lexicographic order, which on UTF-8 text is
      Python's code-point order.
    - A Python [dict] is a [gmap], a Python [set] a [gset].
    - The JSON files written at the end of each method are the values the
      methods return. *)

From Stdlib Require Import ZArith Ascii String Floats.
From stdpp Require Import gmap strings list fin_maps.

Set Warnings "-clear-no-such-hyp".

Local Open Scope string_scope.
Local Open Scope list_scope.
Local Open Scope Z_scope.

(** ** Strings: the few [str] methods the scripts call *)

Module Str.

(** [c.lower()] on one byte: only [A]..[Z] move. *)
Definition lower_ascii (c : ascii) : ascii :=
  let n := nat_of_ascii c in
  if ((65 <=? n) && (n <=? 90))%nat then ascii_of_nat (n + 32) else c.

(** [s.lower()] *)
Fixpoint lower (s : string) : string :=
  match s with
  | EmptyString => EmptyString
  | String c s' => String (lower_ascii c) (lower s')
  end.

(** [s.replace(a, b)] for one-character [a] and [b]. *)
Fixpoint replace (a b : ascii) (s : string) : string :=
  match s with
  | EmptyString => EmptyString
  | String c s' => String (if Ascii.eqb c a then b else c) (replace a b s')
  end.

(** [pat in s]; this is also what [Series.str.contains(pat)] computes for
    a pattern without regular-expression metacharacters. *)
Fixpoint contains (pat s : string) : bool :=
  String.prefix pat s ||
  match s with
  | EmptyString => false
  | String _ s' => contains pat s'
  end.

(** The order of [sorted] and of [groupby] keys on strings. *)
Definition le (s1 s2 : string) : bool := String.leb s1 s2.

End Str.

(** ** Floats: the pandas predicates on cells *)

(** [pd.notna(x)] / [pd.isna(x)] on a float cell. *)
Definition isna (x : float) : bool := PrimFloat.is_nan x.
Definition notna (x : float) : bool := negb (isna x).

(** ** The source table *)

(** One line of [fao.csv].  [Value] is the cell after
    [pd.to_numeric(..., errors='coerce')]: a cell that is empty or does not
    parse is [NaN]. *)
Record Row := mkRow {
  Area : string;
  Item : string;
  Element : string;
  Year : Z;
  Unit : string;
  Value : float
}.

Abbreviation DataFrame := (list Row).

(** [Series.sum()]: [NaN] cells are skipped, the empty sum is [0.0].  The
    accumulation is written left to right. *)
Definition series_sum (vs : list float) : float :=
  foldl (fun acc v => if isna v then acc else (acc + v)%float) 0%float vs.

(** [df[col].unique()]: the distinct values, in order of first appearance. *)
Fixpoint unique `{EqDecision A} (l : list A) : list A :=
  match l with
  | [] => []
  | x :: l' => x :: filter (fun y => y ≠ x) (unique l')
  end.

(** A stable sort: among elements that compare equal the earlier one stays
    first, as in [list.sort], [sorted] and pandas' mergesort. *)
Fixpoint insert_sorted {A} (leb : A -> A -> bool) (x : A) (l : list A) : list A :=
  match l with
  | [] => [x]
  | y :: l' => if leb x y then x :: y :: l' else y :: insert_sorted leb x l'
  end.

Definition stable_sort {A} (leb : A -> A -> bool) (l : list A) : list A :=
  foldr (insert_sorted leb) [] l.

(** [df.groupby(key)] with the default [sort=True]: one group per distinct
    key, groups in ascending key order, the rows of a group in table order. *)
Definition groupby `{EqDecision K} (leb : K -> K -> bool) (key : Row -> K)
    (df : DataFrame) : list (K * DataFrame) :=
  (fun k => (k, filter (fun r => key r = k) df)) <$> stable_sort leb (unique (key <$> df)).

(** [df.nlargest(n, 'Value')]: the [n] rows of largest [Value], largest
    first, ties in table order ([keep='first']). *)
Definition nlargest (n : nat) (df : DataFrame) : DataFrame :=
  take n (stable_sort (fun r1 r2 => negb (Value r1 <? Value r2)%float) df).

(** Key orders. *)
Definition pair_le (k1 k2 : string * string) : bool :=
  if decide (k1.1 = k2.1) then Str.le k1.2 k2.2 else Str.le k1.1 k2.1.

Definition triple_le (k1 k2 : string * string * Z) : bool :=
  if decide (k1.1 = k2.1) then k1.2 <=? k2.2 else pair_le k1.1 k2.1.

(** ** [parse_enhanced.py] *)

(** The module-level set of aggregate regions. *)
Definition AGGREGATE_AREAS : gset string := list_to_set [
  "World"; "Africa"; "Americas"; "Asia"; "Europe"; "Oceania";
  "Eastern Africa"; "Middle Africa"; "Northern Africa"; "Southern Africa";
  "Western Africa"; "Eastern Asia"; "South-eastern Asia"; "Southern Asia";
  "Western Asia"; "Central America"; "South America"; "Northern America";
  "Eastern Europe"; "Northern Europe"; "Southern Europe"; "Western Europe";
  "European Union"; "European Union (27)"; "European Union (28)";
  "Land Locked Developing Countries"; "Least Developed Countries";
  "Low Income Food Deficit Countries";
  "Net Food Importing Developing Countries";
  "Small Island Developing States" ].

Definition KCAL_ELEMENT : string := "Food supply (kcal/capita/day)".

Definition relevant_elements : list string := [
  "Import quantity"; "Export quantity"; "Production";
  "Domestic supply quantity"; "Feed";
  "Protein supply quantity (t)"; "Protein supply quantity (g/capita/day)";
  "Fat supply quantity (t)"; "Fat supply quantity (g/capita/day)";
  "Processing" ].

(** The attributes of [EnhancedFAODataProcessor] that hold tables. *)
Record Processor := mkProcessor {
  df : DataFrame;
  filtered_df : DataFrame;
  kcal_df : DataFrame
}.

(** [df[~df["Area"].isin(AGGREGATE_AREAS)]] *)
Definition remove_aggregate_areas (d : DataFrame) : DataFrame :=
  filter (fun r => Area r ∉ AGGREGATE_AREAS) d.

(** [df.dropna(subset=['Value'])] *)
Definition dropna (d : DataFrame) : DataFrame :=
  filter (fun r => notna (Value r) = true) d.

Definition year_in_range (r : Row) : Prop := 2010 <= Year r <= 2022.

Definition is_food_item (r : Row) : Prop :=
  Str.contains "alcohol" (Str.lower (Item r)) = false ∧
  Str.contains "non-food" (Str.lower (Item r)) = false.

(** [load_and_filter_data]: the argument is the table [pd.read_csv] returns. *)
Definition load_and_filter_data (csv : DataFrame) : Processor :=
  let df := remove_aggregate_areas csv in
  let kcal_df :=
    filter (fun r => year_in_range r ∧ Element r = KCAL_ELEMENT) df in
  let filtered_df :=
    filter (fun r => year_in_range r ∧ Element r ∈ relevant_elements ∧ is_food_item r) df in
  {| df := df; filtered_df := dropna filtered_df; kcal_df := dropna kcal_df |}.

(** *** The timeseries *)

(** A JSON number: Python keeps [0] and [0.0] apart, and so does [json.dump]. *)
Inductive number :=
  | Int (z : Z)
  | Float (f : float).

(** One [year_data] dict: the ["year"] entry and the metric entries. *)
Record YearRecord := mkYearRecord {
  year : Z;
  metrics : gmap string number
}.

(** One entry of [timeseries.json]. *)
Record TimeseriesRecord := mkTimeseriesRecord {
  country : string;
  item : string;
  unit : string;
  data : list YearRecord
}.

Definition mapping : gmap string string := list_to_map [
  ("Import quantity", "imports");
  ("Export quantity", "exports");
  ("Production", "production");
  ("Domestic supply quantity", "domestic_supply");
  ("Feed", "feed");
  ("Protein supply quantity (t)", "protein");
  ("Protein supply quantity (g/capita/day)", "protein_gpcd");
  ("Fat supply quantity (t)", "fat");
  ("Fat supply quantity (g/capita/day)", "fat_gpcd");
  ("Processing", "processing") ].

(** [mapping.get(element, element.lower().replace(' ', '_'))] *)
Definition _normalize_element_name (element : string) : string :=
  default (Str.replace " " "_" (Str.lower element)) (mapping !! element).

Definition mass_elements_kt : list string := [
  "Production"; "Import quantity"; "Export quantity";
  "Domestic supply quantity"; "Feed"; "Processing" ].

(** The value stored for one row: [raw_val] after the optional rescaling. *)
Definition raw_val (row : Row) : float :=
  let raw_val := if notna (Value row) then Value row else 0%float in
  if decide (Element row ∈ mass_elements_kt) then (raw_val * 1000)%float else raw_val.

(** The first loop of [create_country_timeseries]. *)
Definition build_kcal_lookup (kcal_df : DataFrame) : gmap (string * string * Z) float :=
  foldl (fun lookup row => <[(Area row, Item row, Year row) := Value row]> lookup) ∅ kcal_df.

(** The body of the loop over the years of one (country, item) group. *)
Definition build_year_data (kcal_lookup : gmap (string * string * Z) float)
    (country item : string) (year : Z) (year_group : DataFrame) : YearRecord :=
  let year_data :=
    foldl (fun yd row => <[_normalize_element_name (Element row) := Float (raw_val row)]> yd)
      ∅ year_group in
  let year_data :=
    match kcal_lookup !! (country, item, year) with
    | Some kcal_value =>
        <["food_supply_kcal" := Float (if notna kcal_value then kcal_value else 0%float)]> year_data
    | None => year_data
    end in
  {| year := year; metrics := year_data |}.

Definition sort_by_year (l : list YearRecord) : list YearRecord :=
  stable_sort (fun a b => year a <=? year b) l.

Arguments sort_by_year : simpl never.

Definition create_country_timeseries (self : Processor) : list TimeseriesRecord :=
  let kcal_lookup := build_kcal_lookup (kcal_df self) in
  (fun '(country, item, group) =>
     {| country := country; item := item; unit := "t";
        data := sort_by_year
          ((fun '(year, year_group) => build_year_data kcal_lookup country item year year_group)
             <$> groupby Z.leb Year group) |})
  <$> groupby pair_le (fun r => (Area r, Item r)) (filtered_df self).

(** *** Production rankings *)

Record Producer := mkProducer {
  producer_country : string;
  production : float;
  rank : nat
}.

Record ItemRanking := mkItemRanking {
  ranking_item : string;
  ranking_unit : string;
  ranking_year : Z;
  producers : list Producer
}.

(** [group['Unit'].iloc[0] if len(group) > 0 else "1000 t"] *)
Definition first_unit (group : DataFrame) : string :=
  match group with
  | r :: _ => Unit r
  | [] => "1000 t"
  end.

Definition create_production_rankings (self : Processor) : list ItemRanking :=
  let production_2022 :=
    filter (fun r => Element r = "Production" ∧ Year r = 2022) (filtered_df self) in
  (fun '(item, group) =>
     {| ranking_item := item; ranking_unit := first_unit group; ranking_year := 2022;
        producers :=
          imap (fun i row =>
                  {| producer_country := Area row;
                     production := if notna (Value row) then Value row else 0%float;
                     rank := S i |})
               (nlargest 20 group) |})
  <$> groupby Str.le Item production_2022.

(** *** Trade balance *)

Record TradeBalanceEntry := mkTradeBalanceEntry {
  tb_country : string;
  tb_item : string;
  tb_year : Z;
  tb_unit : string;
  imports : float;
  exports : float;
  trade_balance : float;
  net_importer : option bool   (* [None] is Python's [None], JSON [null] *)
}.

(** [group[group['Element'] == e]['Value'].sum()] *)
Definition element_sum (e : string) (group : DataFrame) : float :=
  series_sum (Value <$> filter (fun r => Element r = e) group).

(** The body of the loop of [create_trade_balance]. *)
Definition trade_balance_entry (country item : string) (year : Z) (group : DataFrame)
    : TradeBalanceEntry :=
  let imports := element_sum "Import quantity" group in
  let exports := element_sum "Export quantity" group in
  {| tb_country := country; tb_item := item; tb_year := year;
     tb_unit := first_unit group;
     imports := if notna imports then imports else 0%float;
     exports := if notna exports then exports else 0%float;
     trade_balance :=
       if notna exports && notna imports then (exports - imports)%float else 0%float;
     net_importer :=
       if notna imports && notna exports then Some (exports <? imports)%float else None |}.

Definition create_trade_balance (self : Processor) : list TradeBalanceEntry :=
  let trade_data :=
    filter (fun r => Element r ∈ ["Import quantity"; "Export quantity"]) (filtered_df self) in
  (fun '(country, item, year, group) => trade_balance_entry country item year group)
  <$> groupby triple_le (fun r => (Area r, Item r, Year r)) trade_data.

(** *** Aggregated summaries *)

Record YearSummary := mkYearSummary {
  summary_year : Z;
  totals : gmap string float
}.

Record SummaryData := mkSummaryData {
  global_yearly_totals : list YearSummary;
  top_producing_countries : list (string * float);
  top_produced_items : list (string * float)
}.

(** [Series.nlargest(n)] on a series of (label, value) pairs. *)
Definition series_nlargest (n : nat) (s : list (string * float)) : list (string * float) :=
  take n (stable_sort (fun a b => negb (a.2 <? b.2)%float) s).

(** [df.groupby(key)['Value'].sum()] *)
Definition groupby_sum (key : Row -> string) (d : DataFrame) : list (string * float) :=
  (fun '(k, group) => (k, series_sum (Value <$> group))) <$> groupby Str.le key d.

Definition create_aggregated_summaries (self : Processor) : SummaryData :=
  let global_summary :=
    (fun year =>
       let year_data := filter (fun r => Year r = year) (filtered_df self) in
       {| summary_year := year;
          totals :=
            foldl (fun year_summary element =>
                     let total_value := element_sum element year_data in
                     <[_normalize_element_name element :=
                         if notna total_value then total_value else 0%float]> year_summary)
                  ∅ ["Production"; "Import quantity"; "Export quantity";
                     "Domestic supply quantity"] |})
    <$> stable_sort Z.leb (unique (Year <$> filtered_df self)) in
  let production := filter (fun r => Element r = "Production") (filtered_df self) in
  {| global_yearly_totals := global_summary;
     top_producing_countries := series_nlargest 30 (groupby_sum Area production);
     top_produced_items := series_nlargest 30 (groupby_sum Item production) |}.

(** *** Trade network *)

Record Node := mkNode {
  id : string;
  index : nat;
  total_trade_volume : float
}.

Record Link := mkLink {
  source : string;
  target : string;
  value : float;
  link_item : string
}.

Record NetworkData := mkNetworkData {
  nodes : list Node;
  links : list Link
}.

(** Python's [min(a, b)] on two floats. *)
Definition min2 (a b : float) : float := if (b <? a)%float then b else a.

(** The significant 2022 trade rows the network is built from. *)
Definition trade_2022 (self : Processor) : DataFrame :=
  filter (fun r => Year r = 2022 ∧
                   Element r ∈ ["Import quantity"; "Export quantity"] ∧
                   (100 <? Value r)%float = true)
         (filtered_df self).

(** The links one item contributes. *)
Definition item_links (trade_2022 : DataFrame) (item : string) : list Link :=
  let item_data := filter (fun r => Item r = item) trade_2022 in
  let exporters := nlargest 5 (filter (fun r => Element r = "Export quantity") item_data) in
  let importers := nlargest 5 (filter (fun r => Element r = "Import quantity") item_data) in
  exporter ← exporters;
  importer ← importers;
  if decide (Area exporter ≠ Area importer) then
    (* 0x1.999999999999ap-4 is the double Python reads [0.1] as *)
    let link_volume := (min2 (Value exporter) (Value importer) * 0x1.999999999999ap-4)%float in
    [ {| source := Area exporter; target := Area importer;
         value := link_volume; link_item := item |} ]
  else [].

(** The items the link loop runs over: [trade_2022['Item'].unique()[:10]]. *)
Definition link_items (trade_2022 : DataFrame) : list string :=
  take 10 (unique (Item <$> trade_2022)).

(** The nodes are listed in order of first appearance; the source iterates
    a Python [set], whose order (and so [index]) is not determined. *)
Definition create_network_data (self : Processor) : NetworkData :=
  let trade_2022 := trade_2022 self in
  {| nodes :=
       imap (fun i country =>
               {| id := country; index := i;
                  total_trade_volume :=
                    series_sum (Value <$> filter (fun r => Area r = country) trade_2022) |})
            (unique (Area <$> trade_2022));
     links := link_items trade_2022 ≫= item_links trade_2022 |}.

(** ** [extend_timeseries.py] *)

(** The script reads [fao.csv] as it is (no area, year or item filter) and
    the [timeseries.json] written earlier, and returns the list it dumps.
    Entries of [timeseries] are objects shared between the list and the
    [lookup] dict; here [lookup] holds their positions in the list and an
    update through [lookup] rewrites the list at that position. *)

Definition build_lookup (timeseries : list TimeseriesRecord) : gmap (string * string) nat :=
  foldl (fun lookup '(i, entry) => <[(country entry, item entry) := i]> lookup)
        ∅ (imap pair timeseries).

(** The inner loop that finds the first [year_data] of that year, sets one
    key in it and breaks. *)
Fixpoint set_in_year (y : Z) (k : string) (v : number) (data : list YearRecord)
    : list YearRecord :=
  match data with
  | [] => []
  | year_data :: rest =>
      if decide (year year_data = y)
      then {| year := year year_data; metrics := <[k := v]> (metrics year_data) |} :: rest
      else year_data :: set_in_year y k v rest
  end.

(** One iteration of the loops over [feed_data] and over [calorie_data]. *)
Definition add_metric (lookup : gmap (string * string) nat) (k : string)
    (timeseries : list TimeseriesRecord) (row : Row) : list TimeseriesRecord :=
  if isna (Value row) then timeseries
  else
    match lookup !! (Area row, Item row) with
    | Some i =>
        alter (fun entry =>
                 {| country := country entry; item := item entry; unit := unit entry;
                    data := set_in_year (Year row) k (Float (Value row)) (data entry) |})
              i timeseries
    | None => timeseries
    end.

(** The [year_data] list of a synthesized entry: one dict per row with a
    value, with the placeholders the dict literal spells out. *)
Definition placeholder_year_data (k : string) (country_data : DataFrame) : list YearRecord :=
  (fun row =>
     {| year := Year row;
        metrics := <[k := Float (Value row)]>
                     (<["domestic_supply" := Int 0]>
                        (<["imports" := Int 0]> (<["production" := Int 0]> ∅))) |})
  <$> filter (fun row => isna (Value row) = false) country_data.

(** The entries synthesized for one item from the rows [d] of one element:
    one per country that has at least one value. *)
Definition new_entries (k item unit : string) (d : DataFrame) : list TimeseriesRecord :=
  country ← unique (Area <$> d);
  let country_data := filter (fun r => Area r = country) d in
  let year_data := placeholder_year_data k country_data in
  match year_data with
  | [] => []
  | _ => [ {| country := country; item := item; unit := unit;
              data := sort_by_year year_data |} ]
  end.

(** The two loops that add [feed] and [food_supply_kcal] to the entries the
    file already has. *)
Definition update_existing (csv : DataFrame) (timeseries : list TimeseriesRecord)
    : list TimeseriesRecord :=
  let lookup := build_lookup timeseries in
  let feed_data := filter (fun r => Element r = "Feed") csv in
  let calorie_data := filter (fun r => Element r = KCAL_ELEMENT) csv in
  let timeseries := foldl (add_metric lookup "feed") timeseries feed_data in
  foldl (add_metric lookup "food_supply_kcal") timeseries calorie_data.

(** The entries appended for feed-only items.  [new_feed_items] is a Python
    [set]; its members are visited here in order of first appearance in
    [feed_data]. *)
Definition new_feed_entries (csv : DataFrame) (timeseries : list TimeseriesRecord)
    : list TimeseriesRecord :=
  let feed_data := filter (fun r => Element r = "Feed") csv in
  let existing_items : gset string := list_to_set (item <$> timeseries) in
  let new_feed_items := filter (fun i => i ∉ existing_items) (unique (Item <$> feed_data)) in
  item ← new_feed_items;
  new_entries "feed" item "1000 t" (filter (fun r => Item r = item) feed_data).

(** The entries appended for the Grand Total calories. *)
Definition grand_total_entries (csv : DataFrame) : list TimeseriesRecord :=
  let grand_total_calories :=
    filter (fun r => Element r = KCAL_ELEMENT ∧ Item r = "Grand Total") csv in
  new_entries "food_supply_kcal" "Grand Total" "kcal/capita/day" grand_total_calories.

(** The list the script dumps: the entries read from the file, updated in
    place, followed by the synthesized ones. *)
Definition extend_timeseries_with_feed_and_calories
    (csv : DataFrame) (timeseries : list TimeseriesRecord) : list TimeseriesRecord :=
  update_existing csv timeseries ++
  new_feed_entries csv timeseries ++
  grand_total_entries csv.

(** *** [process_all] *)

(** The five data files [process_all] writes besides the metadata, the
    index and the backup copy. *)
Record Outputs := mkOutputs {
  timeseries_json : list TimeseriesRecord;
  production_rankings_json : list ItemRanking;
  trade_balance_json : list TradeBalanceEntry;
  summary_json : SummaryData;
  network_json : NetworkData
}.

Definition process_all (csv : DataFrame) : Outputs :=
  let self := load_and_filter_data csv in
  {| timeseries_json := create_country_timeseries self;
     production_rankings_json := create_production_rankings self;
     trade_balance_json := create_trade_balance self;
     summary_json := create_aggregated_summaries self;
     network_json := create_network_data self |}.

(** ** Reading the outputs *)

(** [yr] is a [year_data] dict of year [y] in an entry for (c, i). *)
Definition year_record_of (out : list TimeseriesRecord) (c i : string) (y : Z)
    (yr : YearRecord) : Prop :=
  ∃ entry, entry ∈ out ∧ country entry = c ∧ item entry = i ∧
           yr ∈ data entry ∧ year yr = y.

(** The rows of a table for one (country, item, year), in table order: the
    [year_group] of the assembler's inner loop. *)
Definition year_group (d : DataFrame) (c i : string) (y : Z) : DataFrame :=
  filter (fun r => Year r = y) (filter (fun r => (Area r, Item r) = (c, i)) d).

(** The rows of a table for one (country, item, year, element). *)
Definition cell (d : DataFrame) (c i : string) (y : Z) (e : string) : DataFrame :=
  filter (fun r => Area r = c ∧ Item r = i ∧ Year r = y ∧ Element r = e) d.

(** What the assembler does to a value of element [e]. *)
Definition rescaled (e : string) (v : float) : float :=
  if decide (e ∈ mass_elements_kt) then (v * 1000)%float else v.

(** The rows of the calorie table for one (country, item, year). *)
Definition kcal_rows (d : DataFrame) (c i : string) (y : Z) : DataFrame :=
  filter (fun r => (Area r, Item r, Year r) = (c, i, y)) d.

(** The allowed elements that are not rescaled. *)
Definition protein_fat_elements : list string := [
  "Protein supply quantity (t)"; "Protein supply quantity (g/capita/day)";
  "Fat supply quantity (t)"; "Fat supply quantity (g/capita/day)" ].

(** ** Sample rows *)

Definition brazil_soy_2022 : Row :=
  mkRow "Brazil" "Soyabeans" "Production" 2022 "1000 t" 120%float.

Definition world_wheat_kcal_2022 : Row :=
  mkRow "World" "Wheat and products" KCAL_ELEMENT 2022 "kcal/capita/day" 310.5%float.

Definition world_wheat_production_2022 : Row :=
  mkRow "World" "Wheat and products" "Production" 2022 "1000 t" 780000%float.

Definition brazil_wheat_kcal_2022 : Row :=
  mkRow "Brazil" "Wheat and products" KCAL_ELEMENT 2022 "kcal/capita/day" 310.5%float.

Definition brazil_wheat_production_2022 : Row :=
  mkRow "Brazil" "Wheat and products" "Production" 2022 "1000 t" 10%float.

(** Two rows for one (country, item, year, element). *)
Definition duplicate_rows : DataFrame := [
  mkRow "Brazil" "Soyabeans" "Production" 2022 "1000 t" 1%float;
  mkRow "Brazil" "Soyabeans" "Production" 2022 "1000 t" 2%float ].

(** A metric row and a calorie row whose cell is empty. *)
Definition missing_kcal_rows : DataFrame := [
  brazil_soy_2022;
  mkRow "Brazil" "Soyabeans" KCAL_ELEMENT 2022 "kcal/capita/day" nan ].

(** ** Reading the extended file *)

(** [yr'] is [yr] after the update loops: the same year, and every key
    either as it was or, for [feed] and [food_supply_kcal], set from a
    source row of that element and year that has a value. *)
Definition year_data_extends (csv : DataFrame) (yr yr' : YearRecord) : Prop :=
  year yr' = year yr ∧
  ∀ k, metrics yr' !! k = metrics yr !! k ∨
       ∃ r, r ∈ csv ∧ Year r = year yr ∧ isna (Value r) = false ∧
            metrics yr' !! k = Some (Float (Value r)) ∧
            ((k = "feed" ∧ Element r = "Feed") ∨
             (k = "food_supply_kcal" ∧ Element r = KCAL_ELEMENT)).

Definition entry_extends (csv : DataFrame) (e e' : TimeseriesRecord) : Prop :=
  country e' = country e ∧ item e' = item e ∧ unit e' = unit e ∧
  Forall2 (year_data_extends csv) (data e) (data e').

(** A synthesized [year_data]: the three placeholders the dict literal
    writes, one measured key, and nothing else. *)
Definition placeholder_record (k : string) (yr : YearRecord) : Prop :=
  metrics yr !! "production" = Some (Int 0) ∧
  metrics yr !! "imports" = Some (Int 0) ∧
  metrics yr !! "domestic_supply" = Some (Int 0) ∧
  metrics yr !! "exports" = None ∧
  (∃ v, metrics yr !! k = Some (Float v) ∧ isna v = false) ∧
  dom (metrics yr) = ({[ "production"; "imports"; "domestic_supply"; k ]} : gset string).

(** Sources for the extend script. *)
Definition hay_feed_rows : DataFrame := [
  mkRow "Brazil" "Hay" "Feed" 2022 "1000 t" 5%float ].

Definition grand_total_rows : DataFrame := [
  brazil_soy_2022;
  mkRow "World" "Grand Total" KCAL_ELEMENT 2009 "kcal/capita/day" 2800%float ].

(** ** Order *)

(** Neighbours of a list are related by [R]. *)
Definition neighbours {A} (R : A -> A -> Prop) (l : list A) : Prop :=
  ∀ i x y, l !! i = Some x → l !! S i = Some y → R x y.

(** The rows [create_trade_balance] groups under one (country, item, year). *)
Definition trade_group (self : Processor) (c i : string) (y : Z) : DataFrame :=
  filter (fun r => (Area r, Item r, Year r) = (c, i, y))
    (filter (fun r => Element r ∈ ["Import quantity"; "Export quantity"])
       (filtered_df self)).

(** Import and export rows with infinite values. *)
Definition infinite_trade_rows : DataFrame := [
  mkRow "Brazil" "Wheat and products" "Import quantity" 2022 "1000 t" infinity;
  mkRow "Brazil" "Wheat and products" "Import quantity" 2022 "1000 t" neg_infinity ].

Definition finite_trade_rows : DataFrame := [
  mkRow "Brazil" "Wheat and products" "Import quantity" 2022 "1000 t" 500%float;
  mkRow "Brazil" "Wheat and products" "Export quantity" 2022 "1000 t" 120%float ].

(** * Properties *)

(** ** The table primitives *)

Section primitives.
Context {A : Type}.

Lemma insert_sorted_Permutation (leb : A -> A -> bool) x l :
  insert_sorted leb x l ≡ₚ x :: l.
Proof.
  induction l as [|y l IH]; simpl; [done|].
  destruct (leb x y); [done|].
  rewrite IH. apply Permutation_swap.
Qed.

Lemma stable_sort_Permutation (leb : A -> A -> bool) l : stable_sort leb l ≡ₚ l.
Proof.
  induction l as [|x l IH]; simpl; [done|].
  rewrite insert_sorted_Permutation. by f_equiv.
Qed.

Lemma elem_of_stable_sort (leb : A -> A -> bool) l x : x ∈ stable_sort leb l ↔ x ∈ l.
Proof. by rewrite stable_sort_Permutation. Qed.

Lemma NoDup_stable_sort (leb : A -> A -> bool) l : NoDup (stable_sort leb l) ↔ NoDup l.
Proof. by rewrite stable_sort_Permutation. Qed.

Context `{EqDecision A}.

Lemma elem_of_unique (l : list A) x : x ∈ unique l ↔ x ∈ l.
Proof.
  induction l as [|y l IH]; simpl; [done|].
  rewrite !elem_of_cons, list_elem_of_filter, IH.
  destruct (decide (x = y)); naive_solver.
Qed.

Lemma NoDup_unique (l : list A) : NoDup (unique l).
Proof.
  induction l as [|y l IH]; simpl; constructor.
  - rewrite list_elem_of_filter. naive_solver.
  - by apply NoDup_filter.
Qed.

Lemma unique_nil_inv (l : list A) : unique l = [] → l = [].
Proof. by destruct l. Qed.

End primitives.

Section groupby.
Context `{EqDecision K} (leb : K -> K -> bool) (key : Row -> K).

(** The groups of [groupby]: one for each key that occurs, holding the
    rows of that key. *)
Lemma elem_of_groupby (d : DataFrame) k g :
  (k, g) ∈ groupby leb key d ↔
  (∃ r, r ∈ d ∧ key r = k) ∧ g = filter (fun r => key r = k) d.
Proof.
  unfold groupby. rewrite list_elem_of_fmap. split.
  - intros (k' & [= -> ->] & Hk).
    apply elem_of_stable_sort, elem_of_unique, list_elem_of_fmap in Hk.
    naive_solver.
  - intros [(r & Hr & <-) ->]. exists (key r). split; [done|].
    apply elem_of_stable_sort, elem_of_unique, list_elem_of_fmap. eauto.
Qed.

Lemma NoDup_groupby_keys (d : DataFrame) : NoDup ((groupby leb key d).*1).
Proof.
  unfold groupby.
  assert (Hfst : ∀ l : list K,
    ((fun k => (k, filter (fun r => key r = k) d)) <$> l).*1 = l).
  { induction l as [|k l IH]; csimpl; [done|]. by rewrite IH. }
  rewrite Hfst. apply NoDup_stable_sort, NoDup_unique.
Qed.

End groupby.

(** A dict filled by a loop of assignments holds, under each key, what the
    last assignment to that key wrote. *)
Lemma foldl_insert_lookup `{Countable K} {V A} (kf : A -> K) (vf : A -> V)
    (l : list A) (m0 : gmap K V) (k : K) :
  foldl (fun m r => <[kf r := vf r]> m) m0 l !! k =
  match last (filter (fun r => kf r = k) l) with
  | Some r => Some (vf r)
  | None => m0 !! k
  end.
Proof.
  induction l as [|r l IH] using rev_ind; [done|].
  rewrite foldl_app, filter_app. simpl.
  destruct (decide (kf r = k)) as [<-|Hne].
  - rewrite filter_cons_True by done. rewrite filter_nil, last_snoc.
    apply lookup_insert_eq.
  - rewrite filter_cons_False by done. rewrite filter_nil, app_nil_r.
    by rewrite lookup_insert_ne.
Qed.

(** ** [load_and_filter_data] *)

Lemma elem_of_remove_aggregate_areas (d : DataFrame) r :
  r ∈ remove_aggregate_areas d ↔ r ∈ d ∧ Area r ∉ AGGREGATE_AREAS.
Proof. unfold remove_aggregate_areas. rewrite list_elem_of_filter. tauto. Qed.

Lemma remove_aggregate_areas_idemp (d : DataFrame) :
  remove_aggregate_areas (remove_aggregate_areas d) = remove_aggregate_areas d.
Proof.
  unfold remove_aggregate_areas. rewrite list_filter_filter.
  apply list_filter_iff. tauto.
Qed.

Lemma notna_false_isna x : notna x = true ↔ isna x = false.
Proof. unfold notna. by destruct (isna x). Qed.

Lemma elem_of_filtered_df (csv : DataFrame) r :
  r ∈ filtered_df (load_and_filter_data csv) ↔
  r ∈ csv ∧ (Area r ∉ AGGREGATE_AREAS) ∧ year_in_range r ∧
  Element r ∈ relevant_elements ∧ is_food_item r ∧ isna (Value r) = false.
Proof.
  simpl. unfold dropna.
  rewrite !list_elem_of_filter, elem_of_remove_aggregate_areas, notna_false_isna.
  tauto.
Qed.

Lemma elem_of_kcal_df (csv : DataFrame) r :
  r ∈ kcal_df (load_and_filter_data csv) ↔
  r ∈ csv ∧ (Area r ∉ AGGREGATE_AREAS) ∧ year_in_range r ∧
  Element r = KCAL_ELEMENT ∧ isna (Value r) = false.
Proof.
  simpl. unfold dropna.
  rewrite !list_elem_of_filter, elem_of_remove_aggregate_areas, notna_false_isna.
  tauto.
Qed.

(** The tables the processor works on do not change when the aggregate
    rows are taken out of the source beforehand. *)
Lemma load_and_filter_data_remove_aggregate_areas (csv : DataFrame) :
  load_and_filter_data (remove_aggregate_areas csv) = load_and_filter_data csv.
Proof.
  unfold load_and_filter_data. by rewrite remove_aggregate_areas_idemp.
Qed.

(** Membership in the denylist, decided by evaluation. *)
Ltac decide_area :=
  first [ apply (bool_decide_eq_true_1 _); vm_compute; reflexivity
        | apply (bool_decide_eq_false_1 _); vm_compute; reflexivity ].

(** C6 (as amended: the set has 30 entries, not 25).  The area filter keeps
    a row exactly when its [Area] is not one of the 30 names of the
    aggregate-region set, leaves the kept rows in their order, and compares
    names exactly: "South Africa", which contains a denylisted name's words,
    and "world", which differs from one only in case, are kept. *)
Theorem area_filter_exact (csv : DataFrame) :
  (∀ r, r ∈ df (load_and_filter_data csv) ↔ r ∈ csv ∧ Area r ∉ AGGREGATE_AREAS) ∧
  df (load_and_filter_data csv) `sublist_of` csv ∧
  df (load_and_filter_data csv) ++ filter (fun r => Area r ∈ AGGREGATE_AREAS) csv ≡ₚ csv ∧
  size AGGREGATE_AREAS = 30%nat ∧
  "Southern Africa" ∈ AGGREGATE_AREAS ∧
  ("South Africa" ∉ AGGREGATE_AREAS) ∧
  ("world" ∉ AGGREGATE_AREAS).
Proof.
  split_and!.
  - intros r. apply elem_of_remove_aggregate_areas.
  - apply sublist_filter.
  - simpl. unfold remove_aggregate_areas.
    rewrite <- (filter_app_complement (fun r => Area r ∉ AGGREGATE_AREAS) csv) at 3.
    f_equiv. erewrite list_filter_iff; [done|]. intros r. simpl.
    destruct (decide (Area r ∈ AGGREGATE_AREAS)); tauto.
  - vm_compute. reflexivity.
  - decide_area.
  - decide_area.
  - decide_area.
Qed.

(** C6, as stated: the set does not have 25 entries. *)
Lemma aggregate_areas_not_25 : size AGGREGATE_AREAS ≠ 25%nat.
Proof. vm_compute. discriminate. Qed.

(** ** [_normalize_element_name] on the elements that pass the filter *)

Lemma normalize_relevant_inj e1 e2 :
  e1 ∈ relevant_elements → e2 ∈ relevant_elements →
  _normalize_element_name e1 = _normalize_element_name e2 → e1 = e2.
Proof.
  unfold relevant_elements. rewrite !elem_of_cons, !elem_of_nil.
  intros H1 H2.
  repeat (destruct H1 as [->|H1]); try done;
    repeat (destruct H2 as [->|H2]); try done;
    vm_compute; intros; try reflexivity; discriminate.
Qed.

Lemma normalize_relevant_not_kcal e :
  e ∈ relevant_elements → _normalize_element_name e ≠ "food_supply_kcal".
Proof.
  unfold relevant_elements. rewrite !elem_of_cons, !elem_of_nil. intros H.
  repeat (destruct H as [->|H]); try done; vm_compute; discriminate.
Qed.

(** ** [create_country_timeseries] *)

Lemma elem_of_sort_by_year l yr : yr ∈ sort_by_year l ↔ yr ∈ l.
Proof. apply elem_of_stable_sort. Qed.

Lemma year_build_year_data lookup c i y g : year (build_year_data lookup c i y g) = y.
Proof. done. Qed.

(** The assembler emits a [year_data] for (c, i, y) exactly when the
    filtered table has a row for it, and then it is the one built from the
    rows of that triple. *)
Lemma create_country_timeseries_year_record (self : Processor) c i y yr :
  year_record_of (create_country_timeseries self) c i y yr ↔
  (∃ r, r ∈ filtered_df self ∧ Area r = c ∧ Item r = i ∧ Year r = y) ∧
  yr = build_year_data (build_kcal_lookup (kcal_df self)) c i y
         (year_group (filtered_df self) c i y).
Proof.
  unfold year_record_of, create_country_timeseries, year_group. split.
  - intros (entry & Hentry & <- & <- & Hyr & <-).
    apply list_elem_of_fmap in Hentry as ([[c i] g] & -> & Hg).
    apply elem_of_groupby in Hg as [_ ->]. simpl in *.
    apply elem_of_sort_by_year, list_elem_of_fmap in Hyr as ([y yg] & -> & Hyg).
    apply elem_of_groupby in Hyg as [(r & Hr & <-) ->].
    apply list_elem_of_filter in Hr as [[= <- <-] Hr]. simpl. eauto 10.
  - intros [(r & Hr & <- & <- & <-) ->].
    eexists. split.
    { apply list_elem_of_fmap. exists (Area r, Item r, filter (fun r' => (Area r', Item r') = (Area r, Item r)) (filtered_df self)).
      split; [reflexivity|]. apply elem_of_groupby. eauto. }
    simpl. split_and!; try done.
    apply elem_of_sort_by_year, list_elem_of_fmap.
    exists (Year r, filter (fun r' => Year r' = Year r)
                      (filter (fun r' => (Area r', Item r') = (Area r, Item r)) (filtered_df self))).
    split; [done|]. apply elem_of_groupby. split; [|done].
    exists r. split; [|done]. apply list_elem_of_filter. done.
Qed.

(** The metric entries of a [year_data]: the last row of the group that
    normalizes to the key, unless the key is the calorie key and the lookup
    has the triple. *)
Lemma build_year_data_metric lookup c i y g k :
  k ≠ "food_supply_kcal" →
  metrics (build_year_data lookup c i y g) !! k =
  (fun r => Float (raw_val r)) <$>
    last (filter (fun r => _normalize_element_name (Element r) = k) g).
Proof.
  intros Hk. unfold build_year_data. simpl.
  assert (Hfold :
    foldl (fun yd row => <[_normalize_element_name (Element row) := Float (raw_val row)]> yd)
      (∅ : gmap string number) g !! k =
    (fun r => Float (raw_val r)) <$>
      last (filter (fun r => _normalize_element_name (Element r) = k) g)).
  { rewrite (foldl_insert_lookup (fun r => _normalize_element_name (Element r))
               (fun r => Float (raw_val r))).
    destruct (last _); [done|]. apply lookup_empty. }
  destruct (lookup !! (c, i, y)); [|done].
  by rewrite lookup_insert_ne.
Qed.

Lemma build_year_data_kcal lookup c i y g :
  (∀ r, r ∈ g → _normalize_element_name (Element r) ≠ "food_supply_kcal") →
  metrics (build_year_data lookup c i y g) !! "food_supply_kcal" =
  (fun v => Float (if notna v then v else 0%float)) <$> lookup !! (c, i, y).
Proof.
  intros Hg. unfold build_year_data. simpl.
  destruct (lookup !! (c, i, y)) as [v|]; simpl.
  - apply lookup_insert_eq.
  - rewrite (foldl_insert_lookup (fun r => _normalize_element_name (Element r))
               (fun r => Float (raw_val r))).
    destruct (last _) as [r|] eqn:Hlast; [|apply lookup_empty].
    apply last_Some_elem_of, list_elem_of_filter in Hlast as [Hn Hr].
    by apply Hg in Hr.
Qed.

Lemma list_filter_iff_elem_of {A} (P Q : A -> Prop)
    `{!∀ x, Decision (P x), !∀ x, Decision (Q x)} (l : list A) :
  (∀ x, x ∈ l → P x ↔ Q x) → filter P l = filter Q l.
Proof.
  induction l as [|x l IH]; intros HPQ; [done|].
  rewrite !filter_cons.
  rewrite IH by (intros; apply HPQ; by right).
  apply decide_ext, HPQ. by left.
Qed.

(** In the filtered table the rows of a (country, item, year) group that
    normalize to the key of an allowed element are the rows of that
    element: no two allowed elements share a key. *)
Lemma year_group_cell (csv : DataFrame) c i y e :
  e ∈ relevant_elements →
  filter (fun r => _normalize_element_name (Element r) = _normalize_element_name e)
         (year_group (filtered_df (load_and_filter_data csv)) c i y) =
  cell (filtered_df (load_and_filter_data csv)) c i y e.
Proof.
  intros He. unfold year_group, cell. rewrite !list_filter_filter.
  apply list_filter_iff_elem_of. intros r Hr.
  apply elem_of_filtered_df in Hr as (_ & _ & _ & Hrel & _).
  split.
  - intros Hx. destruct_and!. simplify_eq. split_and!; try done.
    by apply normalize_relevant_inj.
  - intros (<- & <- & <- & <-). done.
Qed.

Lemma raw_val_rescaled r : isna (Value r) = false → raw_val r = rescaled (Element r) (Value r).
Proof. intros Hna. unfold raw_val, rescaled, notna. by rewrite Hna. Qed.

(** The value the assembler stores under the key of an allowed element. *)
Lemma timeseries_metric (csv : DataFrame) c i y e yr :
  e ∈ relevant_elements →
  year_record_of (create_country_timeseries (load_and_filter_data csv)) c i y yr →
  metrics yr !! _normalize_element_name e =
  (fun r => Float (rescaled e (Value r))) <$>
    last (cell (filtered_df (load_and_filter_data csv)) c i y e).
Proof.
  intros He [_ ->]%create_country_timeseries_year_record.
  rewrite build_year_data_metric by by apply normalize_relevant_not_kcal.
  rewrite year_group_cell by done.
  destruct (last _) as [r|] eqn:Hlast; [|done]. simpl.
  apply last_Some_elem_of in Hlast.
  apply list_elem_of_filter in Hlast as [(_ & _ & _ & <-) Hr].
  apply elem_of_filtered_df in Hr as (_ & _ & _ & _ & _ & Hna).
  by rewrite raw_val_rescaled.
Qed.

(** The calorie entry of an emitted [year_data]. *)
Lemma timeseries_kcal (csv : DataFrame) c i y yr :
  year_record_of (create_country_timeseries (load_and_filter_data csv)) c i y yr →
  metrics yr !! "food_supply_kcal" =
  (fun r => Float (Value r)) <$>
    last (kcal_rows (kcal_df (load_and_filter_data csv)) c i y).
Proof.
  intros [_ ->]%create_country_timeseries_year_record.
  rewrite build_year_data_kcal.
  - unfold build_kcal_lookup, kcal_rows.
    rewrite (foldl_insert_lookup (fun r => (Area r, Item r, Year r)) Value).
    destruct (last _) as [r|] eqn:Hlast; [|by rewrite lookup_empty]. simpl.
    apply last_Some_elem_of, list_elem_of_filter in Hlast as [_ Hr].
    apply elem_of_kcal_df in Hr as (_ & _ & _ & _ & Hna).
    unfold notna. by rewrite Hna.
  - intros r [_ [_ Hr]%list_elem_of_filter]%list_elem_of_filter.
    apply elem_of_filtered_df in Hr as (_ & _ & _ & Hrel & _).
    by apply normalize_relevant_not_kcal.
Qed.

Lemma timeseries_emits (csv : DataFrame) c i y :
  (∃ r, r ∈ filtered_df (load_and_filter_data csv) ∧ Area r = c ∧ Item r = i ∧ Year r = y) →
  ∃ yr, year_record_of (create_country_timeseries (load_and_filter_data csv)) c i y yr.
Proof.
  intros H. eexists. apply create_country_timeseries_year_record. split; [exact H|done].
Qed.

Lemma elem_of_cell (d : DataFrame) c i y e r :
  r ∈ cell d c i y e ↔ r ∈ d ∧ Area r = c ∧ Item r = i ∧ Year r = y ∧ Element r = e.
Proof. unfold cell. rewrite list_elem_of_filter. tauto. Qed.

(** Two stored floats differ: tell them apart by a comparison. *)
Ltac float_neq :=
  let H := fresh in
  intros H;
  match type of H with
  | _ = Some (Float ?y) =>
      apply (f_equal (fun n => match n with
                               | Some (Float f) => PrimFloat.eqb f y
                               | _ => false
                               end)) in H;
      vm_compute in H; discriminate H
  end.

Lemma relevant_mass_or_protein_fat e :
  e ∈ relevant_elements ↔ e ∈ mass_elements_kt ∨ e ∈ protein_fat_elements.
Proof.
  unfold relevant_elements, mass_elements_kt, protein_fat_elements.
  rewrite !elem_of_cons, !elem_of_nil. tauto.
Qed.

Lemma protein_fat_not_mass e : e ∈ protein_fat_elements → e ∉ mass_elements_kt.
Proof.
  unfold mass_elements_kt, protein_fat_elements.
  rewrite !elem_of_cons, !elem_of_nil. intros H.
  repeat (destruct H as [->|H]); try done;
    intros H'; repeat (destruct H' as [H'|H']); done.
Qed.

(** C9.  When the filtered table has several rows for one (country, item,
    year, element), the assembler emits one [year_data] for the triple and
    it holds, under the element's normalized key, the rescaled value of the
    last of those rows: a later row overwrites an earlier one, nothing is
    summed. *)
Theorem duplicates_last_row_wins (csv : DataFrame) c i y e r
    (Hlast : last (cell (filtered_df (load_and_filter_data csv)) c i y e) = Some r) :
  (∃ yr, year_record_of (create_country_timeseries (load_and_filter_data csv)) c i y yr) ∧
  (∀ yr, year_record_of (create_country_timeseries (load_and_filter_data csv)) c i y yr →
         metrics yr !! _normalize_element_name e = Some (Float (rescaled e (Value r)))).
Proof.
  pose proof (last_Some_elem_of _ _ Hlast) as Hr.
  apply elem_of_cell in Hr as (Hr & <- & <- & <- & <-).
  split.
  - apply timeseries_emits. eauto.
  - intros yr Hyr.
    apply elem_of_filtered_df in Hr as (_ & _ & _ & Hrel & _).
    rewrite (timeseries_metric csv (Area r) (Item r) (Year r) (Element r) yr Hrel Hyr).
    by rewrite Hlast.
Qed.

Lemma duplicates_last_row_wins_witness :
  ∃ yr,
    year_record_of (create_country_timeseries (load_and_filter_data duplicate_rows))
      "Brazil" "Soyabeans" 2022 yr ∧
    metrics yr !! "production" = Some (Float 2000%float).
Proof.
  destruct (duplicates_last_row_wins duplicate_rows "Brazil" "Soyabeans" 2022 "Production"
              (mkRow "Brazil" "Soyabeans" "Production" 2022 "1000 t" 2%float))
    as [[yr Hyr] Hval].
  { vm_compute. reflexivity. }
  exists yr. split; [exact Hyr|]. exact (Hval yr Hyr).
Defined.

(** With the rows [1.0] and [2.0] the stored value is [2000.0]: neither the
    first row's [1000.0] nor the sum's [3000.0]. *)
Lemma duplicate_rows_not_summed yr :
  year_record_of (create_country_timeseries (load_and_filter_data duplicate_rows))
    "Brazil" "Soyabeans" 2022 yr →
  metrics yr !! "production" = Some (Float 2000%float) ∧
  metrics yr !! "production" ≠ Some (Float 3000%float) ∧
  metrics yr !! "production" ≠ Some (Float 1000%float).
Proof.
  intros Hyr.
  assert (metrics yr !! "production" = Some (Float 2000%float)) as ->.
  { apply create_country_timeseries_year_record in Hyr as [_ ->]. vm_compute. reflexivity. }
  split_and!; [done|float_neq|float_neq].
Qed.

(** C1 (as amended: the row must not be followed by another row of the same
    country, item, year and element).  For a filtered row [r] that is the
    last of its (country, item, year, element), the assembler emits a
    [year_data] for the row's triple in which the value under the row's
    normalized key is the row's value times 1000 when the element is one of
    Production, Import quantity, Export quantity, Domestic supply quantity,
    Feed, Processing, and the row's value itself when it is a protein or fat
    element; the injected [food_supply_kcal] is the value of the triple's
    last calorie row, unscaled.  The row (Brazil, Soyabeans, Production,
    2022, 120.0) yields year 2022 and production 120000.0. *)
Theorem mass_metrics_rescaled (csv : DataFrame) (r : Row)
    (Hlast : last (cell (filtered_df (load_and_filter_data csv))
                     (Area r) (Item r) (Year r) (Element r)) = Some r) :
  ∃ yr,
    year_record_of (create_country_timeseries (load_and_filter_data csv))
      (Area r) (Item r) (Year r) yr ∧
    (Element r ∈ mass_elements_kt →
     metrics yr !! _normalize_element_name (Element r) =
       Some (Float (Value r * 1000)%float)) ∧
    (Element r ∈ protein_fat_elements →
     metrics yr !! _normalize_element_name (Element r) = Some (Float (Value r))) ∧
    (Element r ∈ mass_elements_kt ∨ Element r ∈ protein_fat_elements) ∧
    (∀ k, last (kcal_rows (kcal_df (load_and_filter_data csv))
                  (Area r) (Item r) (Year r)) = Some k →
          metrics yr !! "food_supply_kcal" = Some (Float (Value k))) ∧
    (r = brazil_soy_2022 →
     year yr = 2022 ∧ metrics yr !! "production" = Some (Float 120000%float)).
Proof.
  pose proof (last_Some_elem_of _ _ Hlast) as Hr.
  apply elem_of_cell in Hr as (Hr & _).
  destruct (timeseries_emits csv (Area r) (Item r) (Year r)) as [yr Hyr]; [by eauto|].
  apply elem_of_filtered_df in Hr as (_ & _ & _ & Hrel & _).
  pose proof (timeseries_metric csv _ _ _ _ yr Hrel Hyr) as Hval.
  rewrite Hlast in Hval. simpl in Hval.
  exists yr. split_and!; try done.
  - intros Hmass. rewrite Hval. unfold rescaled. by rewrite decide_True.
  - intros Hpf. rewrite Hval. unfold rescaled.
    rewrite decide_False; [done|]. by apply protein_fat_not_mass.
  - by apply relevant_mass_or_protein_fat.
  - intros k Hk. rewrite (timeseries_kcal csv _ _ _ yr Hyr). by rewrite Hk.
  - intros ->. split; [by destruct Hyr as (? & _ & _ & _ & _ & ?)|].
    exact Hval.
Qed.

Lemma mass_metrics_rescaled_witness :
  ∃ yr,
    year_record_of (create_country_timeseries (load_and_filter_data [brazil_soy_2022]))
      "Brazil" "Soyabeans" 2022 yr ∧
    year yr = 2022 ∧ metrics yr !! "production" = Some (Float 120000%float).
Proof.
  destruct (mass_metrics_rescaled [brazil_soy_2022] brazil_soy_2022)
    as (yr & Hyr & _ & _ & _ & _ & Hbrazil).
  { vm_compute. reflexivity. }
  exists yr. split; [exact Hyr|]. exact (Hbrazil eq_refl).
Defined.

(** C1, as stated, fails on a row that a later row of the same country,
    item, year and element overwrites: the first of [duplicate_rows] is a
    filtered Production row of value [1.0], and the stored production is not
    [1000.0]. *)
Lemma mass_metric_of_overwritten_row :
  ∃ r yr,
    r ∈ filtered_df (load_and_filter_data duplicate_rows) ∧
    Element r ∈ mass_elements_kt ∧
    year_record_of (create_country_timeseries (load_and_filter_data duplicate_rows))
      (Area r) (Item r) (Year r) yr ∧
    metrics yr !! _normalize_element_name (Element r) ≠ Some (Float (Value r * 1000)%float).
Proof.
  exists (mkRow "Brazil" "Soyabeans" "Production" 2022 "1000 t" 1%float).
  destruct (timeseries_emits duplicate_rows "Brazil" "Soyabeans" 2022) as [yr Hyr].
  { exists (mkRow "Brazil" "Soyabeans" "Production" 2022 "1000 t" 1%float).
    split; [|done].
    assert (filtered_df (load_and_filter_data duplicate_rows) = duplicate_rows) as ->
      by (vm_compute; reflexivity).
    by left. }
  destruct (duplicate_rows_not_summed yr Hyr) as (Hval & _).
  exists yr. split_and!.
  - assert (filtered_df (load_and_filter_data duplicate_rows) = duplicate_rows) as ->
      by (vm_compute; reflexivity).
    by left.
  - simpl. unfold mass_elements_kt. by left.
  - exact Hyr.
  - simpl.
    assert (_normalize_element_name "Production" = "production") as ->
      by (vm_compute; reflexivity).
    rewrite Hval. float_neq.
Qed.

Lemma elem_of_kcal_rows (d : DataFrame) c i y r :
  r ∈ kcal_rows d c i y ↔ r ∈ d ∧ Area r = c ∧ Item r = i ∧ Year r = y.
Proof.
  unfold kcal_rows. rewrite list_elem_of_filter. split.
  - intros [[= <- <- <-] ?]. done.
  - intros (? & <- & <- & <-). done.
Qed.

(** No entry of the timeseries is for an aggregate region or for a year
    outside 2010..2022. *)
Lemma timeseries_year_record_filtered (csv : DataFrame) c i y yr :
  year_record_of (create_country_timeseries (load_and_filter_data csv)) c i y yr →
  (c ∉ AGGREGATE_AREAS) ∧ 2010 <= y <= 2022.
Proof.
  intros [(r & Hr & <- & <- & <-) _]%create_country_timeseries_year_record.
  apply elem_of_filtered_df in Hr as (_ & ? & ? & _). done.
Qed.

(** C2 (as amended: the calorie row must carry a value).  An emitted
    [year_data] for (country, item, year) has the key [food_supply_kcal] if
    and only if the source table has a row of element
    "Food supply (kcal/capita/day)" for that country, item and year whose
    [Value] is not missing. *)
Theorem kcal_key_iff_source_row (csv : DataFrame) c i y yr
    (Hyr : year_record_of (create_country_timeseries (load_and_filter_data csv)) c i y yr) :
  is_Some (metrics yr !! "food_supply_kcal") ↔
  ∃ r, r ∈ csv ∧ Area r = c ∧ Item r = i ∧ Year r = y ∧
       Element r = KCAL_ELEMENT ∧ isna (Value r) = false.
Proof.
  rewrite (timeseries_kcal csv c i y yr Hyr), fmap_is_Some, last_is_Some.
  destruct (timeseries_year_record_filtered csv c i y yr Hyr) as [Harea Hyear].
  split.
  - intros Hne. destruct (kcal_rows _ c i y) as [|r l] eqn:Hrows; [done|].
    assert (Hr : r ∈ kcal_rows (kcal_df (load_and_filter_data csv)) c i y)
      by (rewrite Hrows; by left).
    apply elem_of_kcal_rows in Hr as (Hr & <- & <- & <-).
    apply elem_of_kcal_df in Hr as (? & _ & _ & ? & ?). eauto 10.
  - intros (r & Hr & <- & <- & <- & He & Hna) Hnil.
    assert (Hin : r ∈ kcal_rows (kcal_df (load_and_filter_data csv)) (Area r) (Item r) (Year r)).
    { apply elem_of_kcal_rows. split; [|done]. apply elem_of_kcal_df. done. }
    rewrite Hnil in Hin. by apply elem_of_nil in Hin.
Qed.

Lemma kcal_key_iff_source_row_witness :
  ∃ yr,
    year_record_of
      (create_country_timeseries
         (load_and_filter_data [brazil_wheat_production_2022; brazil_wheat_kcal_2022]))
      "Brazil" "Wheat and products" 2022 yr ∧
    is_Some (metrics yr !! "food_supply_kcal").
Proof.
  destruct (timeseries_emits [brazil_wheat_production_2022; brazil_wheat_kcal_2022]
              "Brazil" "Wheat and products" 2022) as [yr Hyr].
  { exists brazil_wheat_production_2022. split; [|done].
    assert (filtered_df (load_and_filter_data
              [brazil_wheat_production_2022; brazil_wheat_kcal_2022])
            = [brazil_wheat_production_2022]) as -> by (vm_compute; reflexivity).
    by left. }
  exists yr. split; [exact Hyr|].
  apply (kcal_key_iff_source_row _ _ _ _ _ Hyr).
  exists brazil_wheat_kcal_2022. split_and!; try done.
  right. by left.
Defined.

(** C2, as stated, fails when the calorie row of the triple has no value:
    the source has the row, the [year_data] has no [food_supply_kcal]. *)
Lemma kcal_row_without_value_not_injected :
  ∃ yr,
    year_record_of (create_country_timeseries (load_and_filter_data missing_kcal_rows))
      "Brazil" "Soyabeans" 2022 yr ∧
    (∃ r, r ∈ missing_kcal_rows ∧ Area r = "Brazil" ∧ Item r = "Soyabeans" ∧
          Year r = 2022 ∧ Element r = KCAL_ELEMENT) ∧
    metrics yr !! "food_supply_kcal" = None.
Proof.
  eexists. split_and!.
  - apply create_country_timeseries_year_record. split; [|reflexivity].
    exists brazil_soy_2022. split; [|done].
    assert (filtered_df (load_and_filter_data missing_kcal_rows) = [brazil_soy_2022]) as ->
      by (vm_compute; reflexivity).
    by left.
  - eexists. split; [right; by left|]. done.
  - vm_compute. reflexivity.
Qed.

(** C3 (as amended: the area must not be an aggregate region, which rules
    out "World").  Given a calorie row (area, "Wheat and products", 2022,
    310.5) that is the last calorie row of its triple in the calorie table,
    so that its area is not in the denylist, and given a filtered metric row
    for the same triple, the timeseries has a [year_data] for (area,
    "Wheat and products") at 2022 and its [food_supply_kcal] is 310.5,
    unscaled.  For "World" no [year_data] is ever emitted. *)
Theorem kcal_injected_unscaled (csv : DataFrame) (area unit : string)
    (Hlast : last (kcal_rows (kcal_df (load_and_filter_data csv))
                     area "Wheat and products" 2022)
             = Some (mkRow area "Wheat and products" KCAL_ELEMENT 2022 unit 310.5%float))
    (Hmetric : ∃ r, r ∈ filtered_df (load_and_filter_data csv) ∧
                    Area r = area ∧ Item r = "Wheat and products" ∧ Year r = 2022) :
  (area ∉ AGGREGATE_AREAS) ∧ area ≠ "World" ∧
  (∃ yr, year_record_of (create_country_timeseries (load_and_filter_data csv))
           area "Wheat and products" 2022 yr) ∧
  (∀ yr, year_record_of (create_country_timeseries (load_and_filter_data csv))
           area "Wheat and products" 2022 yr →
         metrics yr !! "food_supply_kcal" = Some (Float 310.5%float)) ∧
  (∀ i y yr, ¬ year_record_of (create_country_timeseries (load_and_filter_data csv))
               "World" i y yr).
Proof.
  assert (Hworld : ∀ i y yr,
    ¬ year_record_of (create_country_timeseries (load_and_filter_data csv)) "World" i y yr).
  { intros i y yr [Hagg _]%timeseries_year_record_filtered. apply Hagg. decide_area. }
  destruct (timeseries_emits csv _ _ _ Hmetric) as [yr Hyr].
  pose proof (timeseries_year_record_filtered csv _ _ _ _ Hyr) as [Harea _].
  split_and!; [done| |by exists yr| |done].
  - intros ->. by apply (Hworld _ _ _ Hyr).
  - intros yr' Hyr'. rewrite (timeseries_kcal csv _ _ _ yr' Hyr'). by rewrite Hlast.
Qed.

Lemma kcal_injected_unscaled_witness :
  ∃ yr,
    year_record_of
      (create_country_timeseries
         (load_and_filter_data [brazil_wheat_production_2022; brazil_wheat_kcal_2022]))
      "Brazil" "Wheat and products" 2022 yr ∧
    metrics yr !! "food_supply_kcal" = Some (Float 310.5%float).
Proof.
  destruct (kcal_injected_unscaled [brazil_wheat_production_2022; brazil_wheat_kcal_2022]
              "Brazil" "kcal/capita/day") as (_ & _ & [yr Hyr] & Hval & _).
  { vm_compute. reflexivity. }
  { exists brazil_wheat_production_2022. split; [|done].
    assert (filtered_df (load_and_filter_data
              [brazil_wheat_production_2022; brazil_wheat_kcal_2022])
            = [brazil_wheat_production_2022]) as -> by (vm_compute; reflexivity).
    by left. }
  exists yr. split; [exact Hyr|]. exact (Hval yr Hyr).
Defined.

(** C3, as stated: with the row (World, "Wheat and products", calories,
    2022, 310.5) in the source, even next to a World production row for the
    same item and year, the timeseries has no [year_data] for World. *)
Lemma world_kcal_row_not_emitted :
  ¬ ∃ yr,
      year_record_of
        (create_country_timeseries
           (load_and_filter_data [world_wheat_production_2022; world_wheat_kcal_2022]))
        "World" "Wheat and products" 2022 yr ∧
      metrics yr !! "food_supply_kcal" = Some (Float 310.5%float).
Proof.
  intros (yr & [Hagg _]%timeseries_year_record_filtered & _).
  apply Hagg. decide_area.
Qed.

(** ** [extend_timeseries.py] *)

Lemma year_data_extends_refl csv yr : year_data_extends csv yr yr.
Proof. split; [done|]. intros k. by left. Qed.

Lemma year_data_extends_trans csv yr1 yr2 yr3 :
  year_data_extends csv yr1 yr2 → year_data_extends csv yr2 yr3 →
  year_data_extends csv yr1 yr3.
Proof.
  intros [Hy12 H12] [Hy23 H23]. split; [congruence|].
  intros k. destruct (H23 k) as [->|(r & ? & ? & ? & ? & ?)]; [apply H12|].
  right. exists r. rewrite <- Hy12. done.
Qed.

Lemma entry_extends_refl csv e : entry_extends csv e e.
Proof.
  split_and!; try done. apply Forall2_same_length_lookup. split; [done|].
  intros i x y ? ?. simplify_eq. apply year_data_extends_refl.
Qed.

Lemma entry_extends_trans csv e1 e2 e3 :
  entry_extends csv e1 e2 → entry_extends csv e2 e3 → entry_extends csv e1 e3.
Proof.
  intros (? & ? & ? & H12) (? & ? & ? & H23). split_and!; try congruence.
  eapply Forall2_trans; [|done..]. apply year_data_extends_trans.
Qed.

(** Setting key [k] in the first [year_data] of year [Year row]. *)
Lemma set_in_year_extends csv k row data :
  row ∈ csv → isna (Value row) = false →
  (k = "feed" ∧ Element row = "Feed") ∨
  (k = "food_supply_kcal" ∧ Element row = KCAL_ELEMENT) →
  Forall2 (year_data_extends csv) data (set_in_year (Year row) k (Float (Value row)) data).
Proof.
  intros Hrow Hna Hk. induction data as [|yd rest IH]; simpl; [constructor|].
  case_decide as Hy.
  - constructor.
    + split; [done|]. intros k'. simpl. destruct (decide (k = k')) as [<-|Hne].
      * right. exists row. rewrite lookup_insert_eq. done.
      * left. by rewrite lookup_insert_ne.
    + apply Forall2_same_length_lookup. split; [done|].
      intros i x y ? ?. simplify_eq. apply year_data_extends_refl.
  - constructor; [apply year_data_extends_refl|done].
Qed.

Lemma add_metric_extends csv lookup k ts row :
  row ∈ csv →
  (k = "feed" ∧ Element row = "Feed") ∨
  (k = "food_supply_kcal" ∧ Element row = KCAL_ELEMENT) →
  Forall2 (entry_extends csv) ts (add_metric lookup k ts row).
Proof.
  intros Hrow Hk.
  assert (Hrefl : Forall2 (entry_extends csv) ts ts).
  { apply Forall2_same_length_lookup. split; [done|].
    intros i x y ? ?. simplify_eq. apply entry_extends_refl. }
  unfold add_metric. destruct (isna (Value row)) eqn:Hna; [done|].
  destruct (lookup !! (Area row, Item row)) as [i|]; [|done].
  apply Forall2_same_length_lookup. split; [by rewrite length_alter|].
  intros j x y Hx Hy. destruct (decide (i = j)) as [->|Hne].
  - rewrite list_lookup_alter_eq, Hx in Hy. simpl in Hy. injection Hy as <-.
    split_and!; try done. simpl. by apply set_in_year_extends.
  - rewrite list_lookup_alter_ne, Hx in Hy by done. injection Hy as <-.
    apply entry_extends_refl.
Qed.

Lemma foldl_add_metric_extends csv lookup k rows ts :
  (∀ row, row ∈ rows → row ∈ csv ∧
     ((k = "feed" ∧ Element row = "Feed") ∨
      (k = "food_supply_kcal" ∧ Element row = KCAL_ELEMENT))) →
  Forall2 (entry_extends csv) ts (foldl (add_metric lookup k) ts rows).
Proof.
  revert ts. induction rows as [|row rows IH]; intros ts Hrows; simpl.
  - apply Forall2_same_length_lookup. split; [done|].
    intros i x y ? ?. simplify_eq. apply entry_extends_refl.
  - eapply Forall2_trans; [apply entry_extends_trans| |].
    + apply add_metric_extends; apply Hrows; by left.
    + apply IH. intros r Hr. apply Hrows. by right.
Qed.

(** The update loops leave every entry in place and only add or overwrite
    [feed] and [food_supply_kcal], from rows that have a value. *)
Lemma update_existing_extends csv ts :
  Forall2 (entry_extends csv) ts (update_existing csv ts).
Proof.
  unfold update_existing.
  eapply Forall2_trans; [apply entry_extends_trans| |].
  - apply (foldl_add_metric_extends csv (build_lookup ts) "feed"
             (filter (fun r => Element r = "Feed") csv)).
    intros row [? ?]%list_elem_of_filter. split; [done|]. by left.
  - apply (foldl_add_metric_extends csv (build_lookup ts) "food_supply_kcal").
    intros row [? ?]%list_elem_of_filter. split; [done|]. by right.
Qed.

Lemma elem_of_placeholder_year_data k d yr :
  yr ∈ placeholder_year_data k d ↔
  ∃ row, row ∈ d ∧ isna (Value row) = false ∧
         yr = {| year := Year row;
                 metrics := <[k := Float (Value row)]>
                              (<["domestic_supply" := Int 0]>
                                 (<["imports" := Int 0]> (<["production" := Int 0]> ∅))) |}.
Proof.
  unfold placeholder_year_data. rewrite list_elem_of_fmap.
  setoid_rewrite list_elem_of_filter. naive_solver.
Qed.

Lemma placeholder_year_data_record k d yr :
  k = "feed" ∨ k = "food_supply_kcal" →
  yr ∈ placeholder_year_data k d → placeholder_record k yr.
Proof.
  intros Hk (row & _ & Hna & ->)%elem_of_placeholder_year_data.
  unfold placeholder_record. simpl.
  destruct Hk as [-> | ->]; (split_and!; [done..| by eauto |]);
    rewrite !dom_insert_L, dom_empty_L; set_solver.
Qed.

(** The entries synthesized from the rows [d] of one element. *)
Lemma elem_of_new_entries k it un d entry :
  entry ∈ new_entries k it un d →
  item entry = it ∧ unit entry = un ∧
  (∃ r, r ∈ d ∧ Area r = country entry) ∧
  ∀ yr, yr ∈ data entry →
        yr ∈ placeholder_year_data k (filter (fun r => Area r = country entry) d).
Proof.
  unfold new_entries. intros (c & Hentry & Hc)%list_elem_of_bind.
  apply elem_of_unique, list_elem_of_fmap in Hc as (r & -> & Hr).
  destruct (placeholder_year_data k _) as [|yd l] eqn:Hdata; [by apply elem_of_nil in Hentry|].
  apply list_elem_of_singleton in Hentry as ->. simpl.
  split_and!; try done; [by eauto|].
  intros yr Hyr. rewrite elem_of_sort_by_year in Hyr. by rewrite Hdata.
Qed.

(** The list the extend script dumps is the prior entries,
    updated in place, followed by the synthesized ones.  Every [year_data]
    of a synthesized entry has [production], [imports] and
    [domestic_supply] set to 0, has no [exports] key, and has besides these
    only its measured key ([feed], or [food_supply_kcal] for Grand Total).
    In a prior entry no [year_data] is added or removed and no key is
    added or changed except [feed] and [food_supply_kcal], which are set
    only from a source row of that element and year that has a value: a
    metric that is absent stays absent. *)
Theorem synthesized_entries_placeholders (csv : DataFrame) (ts : list TimeseriesRecord) :
  extend_timeseries_with_feed_and_calories csv ts =
    update_existing csv ts ++ new_feed_entries csv ts ++ grand_total_entries csv ∧
  Forall2 (entry_extends csv) ts (update_existing csv ts) ∧
  (∀ entry, entry ∈ new_feed_entries csv ts →
     (item entry ∉ item <$> ts) ∧
     ∀ yr, yr ∈ data entry → placeholder_record "feed" yr) ∧
  (∀ entry, entry ∈ grand_total_entries csv →
     item entry = "Grand Total" ∧
     ∀ yr, yr ∈ data entry → placeholder_record "food_supply_kcal" yr).
Proof.
  split_and!; [done|apply update_existing_extends| |].
  - intros entry (i & Hentry & Hi)%list_elem_of_bind.
    apply list_elem_of_filter in Hi as [Hi _].
    apply elem_of_new_entries in Hentry as (-> & _ & _ & Hdata).
    split.
    + intros Hin. apply Hi, elem_of_list_to_set. done.
    + intros yr Hyr. eapply placeholder_year_data_record; [by left|by apply Hdata].
  - intros entry Hentry.
    apply elem_of_new_entries in Hentry as (-> & _ & _ & Hdata).
    split; [done|].
    intros yr Hyr. eapply placeholder_year_data_record; [by right|by apply Hdata].
Qed.

(** The entry synthesized for a feed-only item: [production] is the integer
    0 and there is no [exports] key. *)
Lemma synthesized_entry_without_exports :
  ∃ entry yr,
    entry ∈ extend_timeseries_with_feed_and_calories hay_feed_rows [] ∧
    yr ∈ data entry ∧
    metrics yr !! "production" = Some (Int 0) ∧
    metrics yr !! "exports" = None.
Proof.
  assert (Hout : ∃ entry yr,
    extend_timeseries_with_feed_and_calories hay_feed_rows [] = [entry] ∧
    data entry = [yr] ∧
    metrics yr !! "production" = Some (Int 0) ∧ metrics yr !! "exports" = None).
  { eexists. eexists. split_and!; vm_compute; reflexivity. }
  destruct Hout as (entry & yr & -> & Hdata & ? & ?).
  exists entry, yr. rewrite Hdata. split_and!; try done; by left.
Qed.

(** The years the extended file can hold: those it had, and those of the
    source's feed and calorie rows. *)
Lemma extend_timeseries_years (csv : DataFrame) (ts : list TimeseriesRecord) entry yr :
  entry ∈ extend_timeseries_with_feed_and_calories csv ts → yr ∈ data entry →
  (∃ entry0 yr0, entry0 ∈ ts ∧ yr0 ∈ data entry0 ∧ year yr0 = year yr) ∨
  (∃ r, r ∈ csv ∧ Year r = year yr ∧ isna (Value r) = false ∧
        (Element r = "Feed" ∨ Element r = KCAL_ELEMENT)).
Proof.
  unfold extend_timeseries_with_feed_and_calories. rewrite !elem_of_app.
  intros [Hentry|[Hentry|Hentry]] Hyr.
  - left. apply list_elem_of_lookup in Hentry as [j Hj].
    destruct (Forall2_lookup_r _ _ _ _ _ (update_existing_extends csv ts) Hj)
      as (entry0 & Hj0 & _ & _ & _ & Hdata).
    apply list_elem_of_lookup in Hyr as [n Hn].
    destruct (Forall2_lookup_r _ _ _ _ _ Hdata Hn) as (yr0 & Hn0 & Hy & _).
    exists entry0, yr0. split_and!; [|by eapply list_elem_of_lookup_2|done].
    by eapply list_elem_of_lookup_2.
  - right. apply list_elem_of_bind in Hentry as (i & Hentry & _).
    apply elem_of_new_entries in Hentry as (_ & _ & _ & Hdata).
    apply Hdata, elem_of_placeholder_year_data in Hyr as (r & Hr & Hna & ->).
    apply list_elem_of_filter in Hr as [_ Hr].
    apply list_elem_of_filter in Hr as [_ Hr].
    apply list_elem_of_filter in Hr as [He Hr].
    exists r. split_and!; try done. by left.
  - right. apply elem_of_new_entries in Hentry as (_ & _ & _ & Hdata).
    apply Hdata, elem_of_placeholder_year_data in Hyr as (r & Hr & Hna & ->).
    apply list_elem_of_filter in Hr as [_ Hr].
    apply list_elem_of_filter in Hr as [[He _] Hr].
    exists r. split_and!; try done. by right.
Qed.

(** The year bound is the assembler's; the extend script has no year
    filter.  Every [year_data] in the timeseries of
    [parse_enhanced.py] has a year in 2010..2022.  In the list
    [extend_timeseries.py] writes, every [year_data] carries either a year
    the prior file already had or the year of a source row of element Feed
    or "Food supply (kcal/capita/day)" that has a value, whatever that year
    is. *)
Theorem timeseries_year_bounds (csv : DataFrame) (ts : list TimeseriesRecord) :
  (∀ entry yr, entry ∈ create_country_timeseries (load_and_filter_data csv) →
               yr ∈ data entry → 2010 <= year yr <= 2022) ∧
  (∀ entry yr, entry ∈ extend_timeseries_with_feed_and_calories csv ts →
               yr ∈ data entry →
     (∃ entry0 yr0, entry0 ∈ ts ∧ yr0 ∈ data entry0 ∧ year yr0 = year yr) ∨
     (∃ r, r ∈ csv ∧ Year r = year yr ∧ isna (Value r) = false ∧
           (Element r = "Feed" ∨ Element r = KCAL_ELEMENT))).
Proof.
  split.
  - intros entry yr Hentry Hyr.
    refine (proj2 (timeseries_year_record_filtered csv (country entry) (item entry)
                     (year yr) yr _)).
    exists entry. done.
  - intros entry yr. apply extend_timeseries_years.
Qed.

(** Run on the assembler's own output and on the same source, the extend
    script adds a [year_data] of year 2009 for the Grand Total
    row the source has for that year. *)
Lemma extend_adds_year_outside_range :
  ∃ entry yr,
    entry ∈ extend_timeseries_with_feed_and_calories grand_total_rows
              (create_country_timeseries (load_and_filter_data grand_total_rows)) ∧
    yr ∈ data entry ∧ year yr = 2009 ∧ ¬ (2010 <= year yr <= 2022).
Proof.
  assert (Hout : ∃ entry yr,
    grand_total_entries grand_total_rows = [entry] ∧ data entry = [yr] ∧ year yr = 2009).
  { eexists. eexists. split_and!; vm_compute; reflexivity. }
  destruct Hout as (entry & yr & Hgt & Hdata & Hyear).
  exists entry, yr. split_and!.
  - unfold extend_timeseries_with_feed_and_calories. rewrite !elem_of_app, Hgt.
    right. right. by left.
  - rewrite Hdata. by left.
  - done.
  - rewrite Hyear. lia.
Qed.

(** The extend script reads the source unfiltered, so the Grand Total row of "World" becomes an entry of the
    file it writes. *)
Lemma extend_emits_aggregate_area :
  ∃ r entry yr,
    r ∈ grand_total_rows ∧ Area r ∈ AGGREGATE_AREAS ∧
    entry ∈ extend_timeseries_with_feed_and_calories grand_total_rows
              (create_country_timeseries (load_and_filter_data grand_total_rows)) ∧
    country entry = Area r ∧
    yr ∈ data entry ∧ year yr = Year r ∧
    metrics yr !! "food_supply_kcal" = Some (Float (Value r)).
Proof.
  exists (mkRow "World" "Grand Total" KCAL_ELEMENT 2009 "kcal/capita/day" 2800%float).
  assert (Hout : ∃ entry yr,
    grand_total_entries grand_total_rows = [entry] ∧ data entry = [yr] ∧
    country entry = "World" ∧ year yr = 2009 ∧
    metrics yr !! "food_supply_kcal" = Some (Float 2800%float)).
  { eexists. eexists. split_and!; vm_compute; reflexivity. }
  destruct Hout as (entry & yr & Hgt & Hdata & Hc & Hyear & Hkcal).
  exists entry, yr. split_and!; try done.
  - right. by left.
  - unfold extend_timeseries_with_feed_and_calories. rewrite !elem_of_app, Hgt.
    right. right. by left.
  - rewrite Hdata. by left.
Qed.

(** ** IEEE facts the tables rely on *)

Module FloatFacts.

Section rounding.
Variables prec emax : Z.

Lemma shr_1_nonneg mrs : 0 <= shr_m mrs → 0 <= shr_m (shr_1 mrs).
Proof.
  destruct mrs as [m r s]. simpl.
  destruct m as [|p|p]; simpl; try lia; destruct p; simpl; lia.
Qed.

Lemma iter_pos_shr_1_nonneg p mrs :
  0 <= shr_m mrs → 0 <= shr_m (SpecFloat.iter_pos shr_1 p mrs).
Proof.
  revert mrs. induction p as [p IH|p IH|]; intros mrs H; simpl.
  - apply IH, IH, shr_1_nonneg, H.
  - apply IH, IH, H.
  - apply shr_1_nonneg, H.
Qed.

Lemma shr_record_of_loc_m m l : shr_m (shr_record_of_loc m l) = m.
Proof. destruct l as [|[]]; reflexivity. Qed.

Lemma shr_fexp_nonneg m e l :
  0 <= m → 0 <= shr_m (fst (shr_fexp prec emax m e l)).
Proof.
  intros H. unfold shr_fexp, shr.
  destruct (fexp prec emax (Zdigits2 m + e) - e); simpl;
    rewrite ?shr_record_of_loc_m; auto.
  apply iter_pos_shr_1_nonneg. by rewrite shr_record_of_loc_m.
Qed.

Lemma round_nearest_even_nonneg m l : 0 <= m → 0 <= round_nearest_even m l.
Proof.
  intros H. unfold round_nearest_even.
  destruct l as [|[]]; try lia. destruct (Z.even m); lia.
Qed.

(** Rounding a non-negative mantissa gives a zero, a finite number or an
    infinity. *)
Lemma binary_round_aux_not_nan sx m e l :
  0 <= m → binary_round_aux prec emax sx m e l ≠ S754_nan.
Proof.
  intros H. unfold binary_round_aux.
  pose proof (shr_fexp_nonneg m e l H) as H1.
  destruct (shr_fexp prec emax m e l) as [mrs' e']. simpl in H1.
  pose proof (shr_fexp_nonneg _ e' loc_Exact
                (round_nearest_even_nonneg _ (loc_of_shr_record mrs') H1)) as H2.
  destruct (shr_fexp prec emax _ e' loc_Exact) as [mrs'' e'']. simpl in H2.
  destruct (shr_m mrs'') as [|p|p]; try discriminate; [|lia].
  destruct (e'' <=? emax - prec); discriminate.
Qed.

Lemma binary_normalize_not_nan m e szero :
  binary_normalize prec emax m e szero ≠ S754_nan.
Proof.
  unfold binary_normalize, binary_round.
  destruct m as [|p|p]; try discriminate;
    destruct (shl_align _ _ _); apply binary_round_aux_not_nan; lia.
Qed.

End rounding.

Lemma is_nan_spec x : is_nan x = true ↔ Prim2SF x = S754_nan.
Proof.
  unfold is_nan. rewrite FloatAxioms.eqb_spec. unfold SFeqb.
  destruct (Prim2SF x) as [s| s| |s m e]; simpl.
  - split; discriminate.
  - destruct s; simpl; split; discriminate.
  - split; reflexivity.
  - rewrite Z.compare_refl, Pos.compare_cont_refl.
    destruct s; simpl; split; discriminate.
Qed.

Lemma is_nan_false_spec x : is_nan x = false ↔ Prim2SF x ≠ S754_nan.
Proof. rewrite <- is_nan_spec. destruct (is_nan x); split; congruence. Qed.

Lemma is_finite_spec x :
  is_finite x = true →
  ∃ s, Prim2SF x = S754_zero s ∨ ∃ m e, Prim2SF x = S754_finite s m e.
Proof.
  unfold is_finite, is_infinity. intros H.
  apply negb_true_iff, orb_false_iff in H as [Hn Hi].
  apply is_nan_false_spec in Hn.
  rewrite FloatAxioms.eqb_spec, FloatAxioms.abs_spec in Hi.
  destruct (Prim2SF x) as [s| s| |s m e]; eauto; try congruence.
  vm_compute in Hi. discriminate.
Qed.

(** Adding a finite number to a number never gives [NaN]. *)
Lemma add_not_nan x y :
  is_nan x = false → is_finite y = true → is_nan (x + y) = false.
Proof.
  intros Hx Hy. apply is_nan_false_spec. apply is_nan_false_spec in Hx.
  apply is_finite_spec in Hy as [sy Hy].
  rewrite FloatAxioms.add_spec. unfold SF64add, SFadd.
  destruct (Prim2SF x) as [sx| sx| |sx mx ex]; try congruence;
    destruct Hy as [-> | (my & ey & ->)]; try discriminate.
  - destruct sx, sy; discriminate.
  - apply binary_normalize_not_nan.
Qed.

Lemma SFltb_asym a b : SFltb a b = true → SFltb b a = false.
Proof.
  unfold SFltb.
  destruct a as [sa|sa| |sa ma ea], b as [sb|sb| |sb mb eb]; simpl;
    try discriminate; try reflexivity;
    try (destruct sa; discriminate || reflexivity);
    try (destruct sb; discriminate || reflexivity);
    try (destruct sa, sb; discriminate || reflexivity).
  rewrite (Z.compare_antisym ea eb).
  change (Pos.compare_cont Eq mb ma) with (Pos.compare_cont (CompOpp Eq) mb ma).
  rewrite <- (Pos.compare_cont_antisym ma mb Eq).
  destruct sa, sb; try discriminate; try reflexivity;
    destruct (ea ?= eb); simpl; try discriminate; try reflexivity;
    destruct (Pos.compare_cont Eq ma mb); simpl; try discriminate; reflexivity.
Qed.

(** [<] on floats is asymmetric, [NaN] included. *)
Lemma ltb_asym x y : (x <? y)%float = true → (y <? x)%float = false.
Proof. rewrite !FloatAxioms.ltb_spec. apply SFltb_asym. Qed.

End FloatFacts.

(** ** Order of the sorted tables *)

Section sorted.
Context {A : Type}.

Lemma neighbours_cons (R : A -> A -> Prop) x l :
  neighbours R (x :: l) ↔ (∀ y, head l = Some y → R x y) ∧ neighbours R l.
Proof.
  unfold neighbours. split.
  - intros H. split.
    + intros y Hy. apply (H 0%nat x y); [done|]. by destruct l; simplify_eq/=.
    + intros i a b Ha Hb. by apply (H (S i) a b).
  - intros [Hhd Htl] [|i] a b Ha Hb; simplify_eq/=.
    + apply Hhd. by destruct l; simplify_eq/=.
    + by apply (Htl i).
Qed.

Lemma neighbours_take (R : A -> A -> Prop) n l :
  neighbours R l → neighbours R (take n l).
Proof.
  intros H i x y [Hx _]%lookup_take_Some [Hy _]%lookup_take_Some. by apply (H i).
Qed.

Variable leb : A -> A -> bool.
Hypothesis leb_total : ∀ x y, leb x y = false → leb y x = true.

Lemma insert_sorted_neighbours x l :
  neighbours (fun a b => leb a b = true) l →
  neighbours (fun a b => leb a b = true) (insert_sorted leb x l).
Proof.
  induction l as [|y l IH]; simpl; intros Hl.
  - intros [|i] a b Ha Hb; simplify_eq/=.
  - destruct (leb x y) eqn:Hxy.
    + apply neighbours_cons. split; [|done]. intros ? [= <-]. done.
    + apply neighbours_cons in Hl as [Hhd Htl].
      apply neighbours_cons. split; [|by apply IH].
      intros z Hz. destruct l as [|y' l]; simpl in *.
      * simplify_eq. by apply leb_total.
      * destruct (leb x y'); simplify_eq/=; [by apply leb_total|by apply Hhd].
Qed.

(** The stable sort sorts, whenever the comparison is total. *)
Lemma stable_sort_neighbours l :
  neighbours (fun a b => leb a b = true) (stable_sort leb l).
Proof.
  induction l as [|x l IH]; simpl.
  - intros [|i] a b Ha Hb; simplify_eq/=.
  - by apply insert_sorted_neighbours.
Qed.

End sorted.

(** Ascending and without repetition is strictly ascending. *)
Lemma neighbours_strict {A} (g : A -> Z) (l : list A) :
  neighbours (fun a b => g a <= g b) l → NoDup (g <$> l) →
  neighbours (fun a b => g a < g b) l.
Proof.
  intros Hle Hnd i x y Hx Hy.
  pose proof (Hle i x y Hx Hy) as Hxy. simpl in Hxy |- *.
  destruct (decide (g x = g y)) as [Heq|]; [|lia].
  assert (i = S i); [|lia].
  eapply (NoDup_lookup (g <$> l)); [done| |].
  - rewrite list_lookup_fmap, Hx. done.
  - rewrite list_lookup_fmap, Hy. simpl. by rewrite Heq.
Qed.

Lemma elem_of_nlargest n (d : DataFrame) r : r ∈ nlargest n d → r ∈ d.
Proof.
  unfold nlargest. intros Hr. eapply elem_of_stable_sort, subseteq_take, Hr.
Qed.

Lemma length_stable_sort {A} (leb : A -> A -> bool) l :
  length (stable_sort leb l) = length l.
Proof. by rewrite stable_sort_Permutation. Qed.

Lemma length_nlargest n (d : DataFrame) :
  length (nlargest n d) = (n `min` length d)%nat.
Proof. unfold nlargest. by rewrite length_take, length_stable_sort. Qed.

(** [nlargest] lists its rows largest first: no row is followed by a row of
    larger value. *)
Lemma nlargest_neighbours n (d : DataFrame) :
  neighbours (fun r1 r2 => (Value r1 <? Value r2)%float = false) (nlargest n d).
Proof.
  unfold nlargest. apply neighbours_take.
  intros i x y Hx Hy.
  pose proof (stable_sort_neighbours (fun r1 r2 => negb (Value r1 <? Value r2)%float)) as H.
  eapply negb_true_iff, (H _ d i x y Hx Hy).
  Unshelve. intros a b Hab. apply negb_false_iff in Hab. apply negb_true_iff.
  by apply FloatFacts.ltb_asym.
Qed.

(** ** Shape of the timeseries *)

Lemma groupby_group_nonempty `{EqDecision K} (leb : K -> K -> bool) (key : Row -> K)
    (d : DataFrame) k g :
  (k, g) ∈ groupby leb key d → g ≠ [].
Proof.
  intros [(r & Hr & Hk) ->]%elem_of_groupby Hnil.
  assert (r ∈ filter (fun r => key r = k) d) as Hin by by apply list_elem_of_filter.
  rewrite Hnil in Hin. by apply elem_of_nil in Hin.
Qed.

Lemma length_groupby `{EqDecision K} (leb : K -> K -> bool) (key : Row -> K)
    (d : DataFrame) :
  length (groupby leb key d) = length (unique (key <$> d)).
Proof. unfold groupby. by rewrite length_fmap, length_stable_sort. Qed.

(** [timeseries.json] has one entry per (country, item) pair of the
    filtered table; an entry's unit is "t" and its [data] is not empty and
    strictly ascending in [year]. *)
Theorem timeseries_entries_shape (self : Processor) :
  NoDup ((fun e => (country e, item e)) <$> create_country_timeseries self) ∧
  length (create_country_timeseries self) =
    length (unique ((fun r => (Area r, Item r)) <$> filtered_df self)) ∧
  ∀ e, e ∈ create_country_timeseries self →
       unit e = "t" ∧ data e ≠ [] ∧
       neighbours (fun a b => year a < year b) (data e).
Proof.
  unfold create_country_timeseries. split_and!.
  - rewrite <- list_fmap_compose.
    pose proof (NoDup_groupby_keys pair_le (fun r => (Area r, Item r)) (filtered_df self)) as H.
    erewrite list_fmap_ext; [exact H|]. by intros i [[c it] g].
  - by rewrite length_fmap, length_groupby.
  - intros e ([[c it] g] & -> & Hg)%list_elem_of_fmap. simpl.
    pose proof (groupby_group_nonempty _ _ _ _ _ Hg) as Hne.
    split_and!; [done| |].
    + intros Hnil. apply (f_equal length) in Hnil.
      unfold sort_by_year in Hnil.
      rewrite length_stable_sort, length_fmap, length_groupby in Hnil.
      destruct g as [|r g]; [done|]. simpl in Hnil. discriminate.
    + apply neighbours_strict.
      * unfold sort_by_year. intros i x y Hx Hy. apply Z.leb_le.
        revert i x y Hx Hy. apply (stable_sort_neighbours (fun a b => year a <=? year b)).
        intros a b Hab. apply Z.leb_gt in Hab. apply Z.leb_le. lia.
      * unfold sort_by_year. rewrite stable_sort_Permutation.
        rewrite <- list_fmap_compose.
        pose proof (NoDup_groupby_keys Z.leb Year g) as H.
        erewrite list_fmap_ext; [exact H|]. by intros i [y yg].
Qed.

(** Every entry of an emitted [year_data] comes from a source row: a metric
    key is the normalized name of an allowed element of a row of that
    country, item and year, holding that row's rescaled value; the calorie
    key holds the value of a calorie row of the triple.  Nothing is
    zero-filled or made up. *)
Theorem timeseries_entries_from_source (csv : DataFrame) c i y yr k v
    (Hyr : year_record_of (create_country_timeseries (load_and_filter_data csv)) c i y yr)
    (Hk : metrics yr !! k = Some v) :
  ∃ r, r ∈ csv ∧ Area r = c ∧ Item r = i ∧ Year r = y ∧ isna (Value r) = false ∧
       ((k = "food_supply_kcal" ∧ Element r = KCAL_ELEMENT ∧ v = Float (Value r)) ∨
        (Element r ∈ relevant_elements ∧ k = _normalize_element_name (Element r) ∧
         v = Float (rescaled (Element r) (Value r)))).
Proof.
  destruct (decide (k = "food_supply_kcal")) as [->|Hne].
  - rewrite (timeseries_kcal csv c i y yr Hyr) in Hk.
    destruct (last _) as [r|] eqn:Hlast; [|done]. simpl in Hk. injection Hk as <-.
    apply last_Some_elem_of, elem_of_kcal_rows in Hlast as (Hr & <- & <- & <-).
    apply elem_of_kcal_df in Hr as (? & _ & _ & ? & ?).
    exists r. split_and!; try done. by left.
  - apply create_country_timeseries_year_record in Hyr as [_ ->].
    rewrite build_year_data_metric in Hk by done.
    destruct (last _) as [r|] eqn:Hlast; [|done]. simpl in Hk. injection Hk as <-.
    apply last_Some_elem_of, list_elem_of_filter in Hlast as [<- Hr].
    unfold year_group in Hr.
    apply list_elem_of_filter in Hr as [<- Hr].
    apply list_elem_of_filter in Hr as [[= <- <-] Hr].
    apply elem_of_filtered_df in Hr as (? & _ & _ & ? & _ & Hna).
    exists r. split_and!; try done. right. split_and!; try done.
    by rewrite raw_val_rescaled.
Qed.

Lemma timeseries_entries_from_source_witness :
  ∃ r, r ∈ [brazil_soy_2022] ∧ Element r = "Production" ∧
       Float (rescaled (Element r) (Value r)) = Float 120000%float.
Proof.
  destruct (timeseries_emits [brazil_soy_2022] "Brazil" "Soyabeans" 2022) as [yr Hyr].
  { exists brazil_soy_2022. split; [|done].
    assert (filtered_df (load_and_filter_data [brazil_soy_2022]) = [brazil_soy_2022]) as ->
      by (vm_compute; reflexivity).
    by left. }
  assert (Hk : metrics yr !! "production" = Some (Float 120000%float)).
  { apply create_country_timeseries_year_record in Hyr as [_ ->]. vm_compute. reflexivity. }
  destruct (timeseries_entries_from_source [brazil_soy_2022] _ _ _ yr _ _ Hyr Hk)
    as (r & Hr & _ & _ & _ & _ & [(Hkcal & _)|(_ & _ & Hv)]); [discriminate Hkcal|].
  apply list_elem_of_singleton in Hr as ->.
  exists brazil_soy_2022. split_and!; [by left|done|by symmetry].
Defined.

(** ** Where the rows of the secondary outputs come from *)

Lemma rankings_producer_row (self : Processor) ranking i p :
  ranking ∈ create_production_rankings self → producers ranking !! i = Some p →
  ranking_year ranking = 2022 ∧ rank p = S i ∧
  ∃ r, r ∈ filtered_df self ∧ Element r = "Production" ∧ Year r = 2022 ∧
       Item r = ranking_item ranking ∧ producer_country p = Area r ∧
       production p = (if notna (Value r) then Value r else 0%float) ∧
       nlargest 20 (filter (fun r' => Item r' = ranking_item ranking)
                      (filter (fun r' => Element r' = "Production" ∧ Year r' = 2022)
                         (filtered_df self))) !! i = Some r.
Proof.
  unfold create_production_rankings.
  intros ([it g] & -> & Hg)%list_elem_of_fmap Hp. simpl in *.
  apply elem_of_groupby in Hg as [_ ->].
  rewrite list_lookup_imap in Hp.
  destruct (nlargest 20 _ !! i) as [r|] eqn:Hr; [|done]. simpl in Hp. injection Hp as <-.
  split_and!; try done. exists r.
  pose proof (list_elem_of_lookup_2 _ _ _ Hr) as Hin.
  apply elem_of_nlargest, list_elem_of_filter in Hin as [<- Hin].
  apply list_elem_of_filter in Hin as [[? ?] Hin]. done.
Qed.

Lemma trade_balance_entry_row (self : Processor) e :
  e ∈ create_trade_balance self →
  e = trade_balance_entry (tb_country e) (tb_item e) (tb_year e)
        (filter (fun r => (Area r, Item r, Year r) = (tb_country e, tb_item e, tb_year e))
           (filter (fun r => Element r ∈ ["Import quantity"; "Export quantity"])
              (filtered_df self))) ∧
  ∃ r, r ∈ filtered_df self ∧ Element r ∈ ["Import quantity"; "Export quantity"] ∧
       Area r = tb_country e ∧ Item r = tb_item e ∧ Year r = tb_year e.
Proof.
  unfold create_trade_balance.
  intros ([[[c it] y] g] & -> & Hg)%list_elem_of_fmap. simpl.
  apply elem_of_groupby in Hg as [(r & Hr & [= <- <- <-]) ->]. split; [done|].
  apply list_elem_of_filter in Hr as [? ?]. eauto 10.
Qed.

Lemma elem_of_series_nlargest n s x : x ∈ series_nlargest n s → x ∈ s.
Proof.
  unfold series_nlargest. intros Hx. eapply elem_of_stable_sort, subseteq_take, Hx.
Qed.

Lemma elem_of_groupby_sum key (d : DataFrame) k v :
  (k, v) ∈ groupby_sum key d → ∃ r, r ∈ d ∧ key r = k.
Proof.
  unfold groupby_sum. intros ([k' g] & [= -> ->] & Hg)%list_elem_of_fmap.
  by apply elem_of_groupby in Hg as [? _].
Qed.

Lemma summary_top_country_row (self : Processor) c v :
  (c, v) ∈ top_producing_countries (create_aggregated_summaries self) →
  ∃ r, r ∈ filtered_df self ∧ Element r = "Production" ∧ Area r = c.
Proof.
  simpl. intros (r & Hr & <-)%elem_of_series_nlargest%elem_of_groupby_sum.
  apply list_elem_of_filter in Hr as [? ?]. eauto.
Qed.

Lemma elem_of_trade_2022 (self : Processor) r :
  r ∈ trade_2022 self ↔
  r ∈ filtered_df self ∧ Year r = 2022 ∧
  Element r ∈ ["Import quantity"; "Export quantity"] ∧ (100 <? Value r)%float = true.
Proof. unfold trade_2022. rewrite list_elem_of_filter. tauto. Qed.

Lemma network_node_row (self : Processor) n :
  n ∈ nodes (create_network_data self) → ∃ r, r ∈ trade_2022 self ∧ Area r = id n.
Proof.
  simpl. intros (i & c & -> & Hc)%elem_of_lookup_imap. simpl.
  apply list_elem_of_lookup_2, elem_of_unique, list_elem_of_fmap in Hc as (r & -> & Hr).
  eauto.
Qed.

Lemma elem_of_item_links (t : DataFrame) it l :
  l ∈ item_links t it ↔
  ∃ exporter importer,
    exporter ∈ nlargest 5 (filter (fun r => Element r = "Export quantity")
                             (filter (fun r => Item r = it) t)) ∧
    importer ∈ nlargest 5 (filter (fun r => Element r = "Import quantity")
                             (filter (fun r => Item r = it) t)) ∧
    Area exporter ≠ Area importer ∧
    l = {| source := Area exporter; target := Area importer;
           value := (min2 (Value exporter) (Value importer) * 0x1.999999999999ap-4)%float;
           link_item := it |}.
Proof.
  unfold item_links. rewrite list_elem_of_bind. split.
  - intros (exporter & (importer & Hl & Hi)%list_elem_of_bind & He).
    case_decide; [|by apply elem_of_nil in Hl].
    apply list_elem_of_singleton in Hl. eauto 10.
  - intros (exporter & importer & He & Hi & Hne & ->).
    exists exporter. split; [|done]. apply list_elem_of_bind.
    exists importer. split; [|done]. rewrite decide_True by done. by left.
Qed.

Lemma create_country_timeseries_entry_row (self : Processor) e :
  e ∈ create_country_timeseries self →
  ∃ r, r ∈ filtered_df self ∧ Area r = country e ∧ Item r = item e.
Proof.
  unfold create_country_timeseries.
  intros ([[c it] g] & -> & Hg)%list_elem_of_fmap. simpl.
  apply elem_of_groupby in Hg as [(r & Hr & [= <- <-]) _]. eauto.
Qed.

Lemma filtered_row_not_aggregate (csv : DataFrame) r :
  r ∈ filtered_df (load_and_filter_data csv) → Area r ∉ AGGREGATE_AREAS.
Proof. by intros (_ & ? & _)%elem_of_filtered_df. Qed.

(** The five data files of [process_all] do not depend on the rows of
    aggregate regions: two sources that agree once those rows are removed
    give the same files, and no country field of any file names an
    aggregate region. *)
Theorem process_all_excludes_aggregate_areas (csv : DataFrame) :
  (∀ csv', remove_aggregate_areas csv' = remove_aggregate_areas csv →
           process_all csv' = process_all csv) ∧
  (∀ e, e ∈ timeseries_json (process_all csv) → country e ∉ AGGREGATE_AREAS) ∧
  (∀ ranking p, ranking ∈ production_rankings_json (process_all csv) →
                p ∈ producers ranking → producer_country p ∉ AGGREGATE_AREAS) ∧
  (∀ e, e ∈ trade_balance_json (process_all csv) → tb_country e ∉ AGGREGATE_AREAS) ∧
  (∀ c v, (c, v) ∈ top_producing_countries (summary_json (process_all csv)) →
          c ∉ AGGREGATE_AREAS) ∧
  (∀ n, n ∈ nodes (network_json (process_all csv)) → id n ∉ AGGREGATE_AREAS) ∧
  (∀ l, l ∈ links (network_json (process_all csv)) →
        (source l ∉ AGGREGATE_AREAS) ∧ (target l ∉ AGGREGATE_AREAS)).
Proof.
  split_and!.
  - intros csv' Heq. unfold process_all.
    rewrite <- (load_and_filter_data_remove_aggregate_areas csv'), Heq.
    by rewrite load_and_filter_data_remove_aggregate_areas.
  - intros e He.
    apply (create_country_timeseries_entry_row (load_and_filter_data csv)) in He
      as (r & Hr & <- & _).
    by apply filtered_row_not_aggregate in Hr.
  - intros ranking p Hranking [i Hp]%list_elem_of_lookup.
    destruct (rankings_producer_row (load_and_filter_data csv) _ _ _ Hranking Hp)
      as (_ & _ & r & Hr & _ & _ & _ & -> & _).
    by apply filtered_row_not_aggregate in Hr.
  - intros e He.
    apply (trade_balance_entry_row (load_and_filter_data csv)) in He
      as (_ & r & Hr & _ & <- & _).
    by apply filtered_row_not_aggregate in Hr.
  - intros c v Hc.
    apply (summary_top_country_row (load_and_filter_data csv)) in Hc as (r & Hr & _ & <-).
    by apply filtered_row_not_aggregate in Hr.
  - intros n Hn.
    apply (network_node_row (load_and_filter_data csv)) in Hn
      as (r & [Hr _]%elem_of_trade_2022 & <-).
    by apply filtered_row_not_aggregate in Hr.
  - intros l Hl.
    change (l ∈ link_items (trade_2022 (load_and_filter_data csv)) ≫=
                item_links (trade_2022 (load_and_filter_data csv))) in Hl.
    apply list_elem_of_bind in Hl as (it & Hl & _).
    apply elem_of_item_links in Hl as (ex & im & Hex & Him & _ & ->). simpl.
    apply elem_of_nlargest, list_elem_of_filter in Hex as [_ Hex].
    apply list_elem_of_filter in Hex as [_ [Hex _]%elem_of_trade_2022].
    apply elem_of_nlargest, list_elem_of_filter in Him as [_ Him].
    apply list_elem_of_filter in Him as [_ [Him _]%elem_of_trade_2022].
    split; by eapply filtered_row_not_aggregate.
Qed.

(** ** Production rankings *)


(** ** Trade balance *)

(** A sum of finite values is a number. *)
Lemma series_sum_not_nan (vs : list float) :
  (∀ v, v ∈ vs → is_finite v = true) → isna (series_sum vs) = false.
Proof.
  unfold series_sum.
  assert (Hgen : ∀ acc, isna acc = false →
    (∀ v, v ∈ vs → is_finite v = true) →
    isna (foldl (fun acc v => if isna v then acc else (acc + v)%float) acc vs) = false).
  { induction vs as [|v vs IH]; intros acc Hacc Hvs; simpl; [done|].
    apply IH; [|intros; apply Hvs; by right].
    destruct (isna v); [done|].
    apply FloatFacts.add_not_nan; [done|]. apply Hvs. by left. }
  apply Hgen. vm_compute. reflexivity.
Qed.

Lemma is_finite_of_not_nan_not_infinity x :
  isna x = false → is_infinity x = false → is_finite x = true.
Proof. unfold is_finite, isna. by intros -> ->. Qed.

Lemma elem_of_trade_group (self : Processor) c i y r :
  r ∈ trade_group self c i y ↔
  r ∈ filtered_df self ∧ Element r ∈ ["Import quantity"; "Export quantity"] ∧
  Area r = c ∧ Item r = i ∧ Year r = y.
Proof.
  unfold trade_group. rewrite !list_elem_of_filter. split.
  - intros ([= <- <- <-] & ? & ?). done.
  - intros (? & ? & <- & <- & <-). done.
Qed.

(** [trade_balance.json] has one entry per (country, item, year) that has an
    import or export row, never two.  [net_importer] is null exactly when the
    import values or the export values sum to [NaN], and then imports,
    exports and trade_balance are reported with 0.0 in place of the [NaN]
    sum; otherwise the entry holds the two sums, their difference, and
    whether imports exceed exports.  A side with no rows sums to 0.0. *)
Theorem trade_balance_entries (self : Processor) :
  NoDup ((fun e => (tb_country e, tb_item e, tb_year e)) <$> create_trade_balance self) ∧
  ∀ e, e ∈ create_trade_balance self →
    let group := trade_group self (tb_country e) (tb_item e) (tb_year e) in
    let imports_sum := element_sum "Import quantity" group in
    let exports_sum := element_sum "Export quantity" group in
    group ≠ [] ∧
    (net_importer e = None ↔ isna imports_sum = true ∨ isna exports_sum = true) ∧
    (isna imports_sum = false → isna exports_sum = false →
       imports e = imports_sum ∧ exports e = exports_sum ∧
       trade_balance e = (exports_sum - imports_sum)%float ∧
       net_importer e = Some (exports_sum <? imports_sum)%float) ∧
    (isna imports_sum = true ∨ isna exports_sum = true →
       trade_balance e = 0%float ∧
       (isna imports_sum = true → imports e = 0%float) ∧
       (isna exports_sum = true → exports e = 0%float)) ∧
    ((∀ r, r ∈ group → Element r ≠ "Export quantity") → exports e = 0%float) ∧
    ((∀ r, r ∈ group → Element r ≠ "Import quantity") → imports e = 0%float).
Proof.
  split.
  - unfold create_trade_balance. rewrite <- list_fmap_compose.
    pose proof (NoDup_groupby_keys triple_le (fun r => (Area r, Item r, Year r))
      (filter (fun r => Element r ∈ ["Import quantity"; "Export quantity"])
         (filtered_df self))) as H.
    erewrite list_fmap_ext; [exact H|]. by intros i [[[c it] y] g].
  - intros e He. apply trade_balance_entry_row in He as (He & r & Hr & ? & ? & ? & ?).
    fold (trade_group self (tb_country e) (tb_item e) (tb_year e)) in He.
    set (group := trade_group self (tb_country e) (tb_item e) (tb_year e)) in *.
    assert (Hempty : ∀ el, (∀ r, r ∈ group → Element r ≠ el) →
                           element_sum el group = 0%float).
    { intros el Hel. unfold element_sum.
      destruct (filter (fun r => Element r = el) group) as [|r' l] eqn:Hf; [done|].
      assert (r' ∈ filter (fun r => Element r = el) group) as Hin by (rewrite Hf; by left).
      apply list_elem_of_filter in Hin as [? Hin]. by apply Hel in Hin. }
    simpl. split_and!.
    + intros Hnil. assert (r ∈ group) as Hin by by apply elem_of_trade_group.
      rewrite Hnil in Hin. by apply elem_of_nil in Hin.
    + rewrite He. unfold trade_balance_entry, notna. simpl.
      destruct (isna (element_sum "Import quantity" group)),
               (isna (element_sum "Export quantity" group)); simpl; naive_solver.
    + intros Hi Hx. rewrite He. unfold trade_balance_entry, notna. simpl.
      by rewrite Hi, Hx.
    + intros Hna. rewrite He. unfold trade_balance_entry, notna. simpl.
      destruct (isna (element_sum "Import quantity" group)),
               (isna (element_sum "Export quantity" group)); simpl; naive_solver.
    + intros Hel. rewrite He. unfold trade_balance_entry, notna. simpl.
      rewrite (Hempty _ Hel). reflexivity.
    + intros Hel. rewrite He. unfold trade_balance_entry, notna. simpl.
      rewrite (Hempty _ Hel). reflexivity.
Qed.
